(** * PixBay: the project dashboard, the sprint form and the relational schema

    A shallow embedding of
    - [apps/client/src/components/ProjectInfo.tsx] (the [ProjectInfo]
      component and its [fetchProjectInfo] callback),
    - the [SprintFormModal] component (its two effects and [handleSubmit]),
    - the Prisma schema (models, unique constraints, relations and their
      referential actions),
    together with the properties the specification states about them. *)

From stdpp Require Import gmap strings list pretty.


(** * JavaScript values

    A response body is whatever [JSON.parse] produced.  Numbers are kept to
    integers: the components only test them for truthiness and hand them on
    unchanged.  [JNum n] stands for the number [n] where a double holds [n]
    exactly and prints it as its decimal numeral (up to 2^53 in magnitude);
    fractions and larger numbers are outside the model.  A string is held
    as the bytes of its UTF-8 text. *)

#[warnings="-register-all"]
Inductive json : Type :=
| JNull
| JBool (b : bool)
| JNum (n : Z)
| JStr (s : string)
| JArr (l : list json)
| JObj (m : gmap string json).

(** The value of an expression is a [json] value or [undefined] ([None]). *)

Definition truthy (v : option json) : bool :=
  match v with
  | None => false
  | Some JNull => false
  | Some (JBool b) => b
  | Some (JNum n) => negb (n =? 0)%Z
  | Some (JStr s) => negb (String.eqb s "")
  | Some (JArr _) => true
  | Some (JObj _) => true
  end.

(** [v || d] for a defined right operand. *)
Definition js_or (v : option json) (d : json) : json :=
  match v with
  | Some x => if truthy v then x else d
  | None => d
  end.

(** What is thrown: an axios error (with the server's response when there was
    one), a [TypeError], or any other rejection. *)

Record HttpResponse := {
  status : N;
  statusText : string;
  data : json;
}.

Inductive Exn :=
| AxiosError (response : option HttpResponse)
| TypeError
| OtherError.

(** [d.k] for a name [k] that no prototype defines (the components read
    [status], [progress] and [error]): reading a property of [null] throws. *)
Definition member (d : json) (k : string) : Exn + option json :=
  match d with
  | JNull => inl TypeError
  | JObj m => inr (m !! k)
  | _ => inr None
  end.

(** [d?.k] *)
Definition opt_member (d : option json) (k : string) : option json :=
  match d with
  | None | Some JNull => None
  | Some (JObj m) => m !! k
  | Some _ => None
  end.

(** The own enumerable properties copied by [{...d}]: the fields of an
    object, the indexed elements of an array or of a string, nothing for
    the other values. *)
Definition indexed (l : list json) : gmap string json :=
  list_to_map (imap (λ i v, (pretty i, v)) l).

(** The elements of a string are its UTF-16 code units: one for a
    character of one, two or three UTF-8 bytes, and the two surrogate halves
    for a character of four (each half written as the three bytes that
    would encode it). *)
Definition utf8_length (lead : Ascii.ascii) : nat :=
  let b := Ascii.N_of_ascii lead in
  if (b <? 192)%N then 1
  else if (b <? 224)%N then 2
  else if (b <? 240)%N then 3
  else if (b <? 248)%N then 4
  else 1.

Definition six_bits (c : Ascii.ascii) : N := N.land (Ascii.N_of_ascii c) 63.

Definition surrogate (u : N) : string :=
  String (Ascii.ascii_of_N (N.lor 224 (N.shiftr u 12)))
    (String (Ascii.ascii_of_N (N.lor 128 (N.land (N.shiftr u 6) 63)))
       (String (Ascii.ascii_of_N (N.lor 128 (N.land u 63))) "")).

Definition surrogates (b1 b2 b3 b4 : Ascii.ascii) : string * string :=
  let cp := N.lor (N.shiftl (N.land (Ascii.N_of_ascii b1) 7) 18)
              (N.lor (N.shiftl (six_bits b2) 12)
                 (N.lor (N.shiftl (six_bits b3) 6) (six_bits b4))) in
  let v := (cp - 65536)%N in
  (surrogate (55296 + N.shiftr v 10), surrogate (56320 + N.land v 1023)).

Fixpoint code_units (bytes : list Ascii.ascii) : list string :=
  match bytes with
  | [] => []
  | b1 :: rest =>
      match utf8_length b1, rest with
      | 4, b2 :: b3 :: b4 :: rest' =>
          let '(high, low) := surrogates b1 b2 b3 b4 in
          high :: low :: code_units rest'
      | 3, b2 :: b3 :: rest' =>
          String b1 (String b2 (String b3 "")) :: code_units rest'
      | 2, b2 :: rest' => String b1 (String b2 "") :: code_units rest'
      | _, _ => String b1 "" :: code_units rest
      end
  end.

Definition chars (s : string) : list json :=
  JStr <$> code_units (String.list_ascii_of_string s).

Definition spread (d : json) : gmap string json :=
  match d with
  | JObj m => m
  | JArr l => indexed l
  | JStr s => indexed (chars s)
  | _ => ∅
  end.

(** [`${token}`] for the [string | null] that [getToken] resolves to. *)
Definition show_token (token : option string) : string :=
  match token with
  | Some s => s
  | None => "null"
  end.

(** * Requests, observable events and the environment *)

Inductive Method := GET | POST.

Record Request := {
  method : Method;
  url : string;
  body : option json;
  headers : list (string * string);
}.

Inductive Event :=
| EvRequest (r : Request)
| EvConsoleError (label : string)
| EvPreventDefault
| EvOnClose
| EvOnSprintCreated.

(** What the components get from outside: the auth provider's [getToken],
    the HTTP client, and the API client utility [../utils/api], of which
    both the named export [getApiEndpoint] and the method of the default
    export [api.getApiEndpoint] are used; they are parameters here. *)
Record Env := {
  getToken : Exn + option string;
  axios : Request → Exn + HttpResponse;
  getApiEndpoint : string → string;
  api_getApiEndpoint : string → string;
}.

(** * Handlers as computations over the component state

    A handler threads the component's state and the log of what it did to
    the outside world, and may throw. *)

Definition Eff (S A : Type) : Type :=
  S → list Event → (Exn + A) * S * list Event.

Section Eff.
Context {S : Type}.

Definition ret {A} (a : A) : Eff S A := λ s t, (inr a, s, t).

Definition bind {A B} (k : A → Eff S B) (c : Eff S A) : Eff S B :=
  λ s t,
    match c s t with
    | (inr a, s', t') => k a s' t'
    | (inl e, s', t') => (inl e, s', t')
    end.

(** The sequencing notations [x ← c; k] and [c;; k] are stdpp's. *)
#[global] Instance eff_ret : MRet (Eff S) := @ret.
#[global] Instance eff_bind : MBind (Eff S) := @bind.

Definition lift {A} (r : Exn + A) : Eff S A := λ s t, (r, s, t).

Definition get : Eff S S := λ s t, (inr s, s, t).

Definition modify (f : S → S) : Eff S unit := λ s t, (inr tt, f s, t).

Definition emit (ev : Event) : Eff S unit := λ s t, (inr tt, s, t ++ [ev]).

(** [try { c } catch (err) { h err }] *)
Definition try_catch {A} (c : Eff S A) (h : Exn → Eff S A) : Eff S A :=
  λ s t,
    match c s t with
    | (inl e, s', t') => h e s' t'
    | r => r
    end.

(** [c finally { f }]: [f] always runs; the outcome is that of [c] unless
    [f] itself throws. *)
Definition finally {A} (c : Eff S A) (f : Eff S unit) : Eff S A :=
  λ s t,
    match c s t with
    | (r, s', t') =>
        match f s' t' with
        | (inr _, s'', t'') => (r, s'', t'')
        | (inl e, s'', t'') => (inl e, s'', t'')
        end
    end.

(** [await axios.get(url, { headers })] and [await axios.post(url, body,
    { headers })]: the request goes out, then the promise settles. *)
Definition axios_get (env : Env) (u : string) (h : list (string * string))
  : Eff S HttpResponse :=
  let r := {| method := GET; url := u; body := None; headers := h |} in
  emit (EvRequest r);; lift (axios env r).

Definition axios_post (env : Env) (u : string) (b : json)
    (h : list (string * string)) : Eff S HttpResponse :=
  let r := {| method := POST; url := u; body := Some b; headers := h |} in
  emit (EvRequest r);; lift (axios env r).

Definition console_error (label : string) : Eff S unit :=
  emit (EvConsoleError label).

(** Running a handler from a state, with nothing logged yet. *)
Definition run {A} (c : Eff S A) (s : S) : (Exn + A) * S * list Event :=
  c s [].

Definition final_state {A} (c : Eff S A) (s : S) : S := (run c s).1.2.

Definition trace {A} (c : Eff S A) (s : S) : list Event := (run c s).2.
End Eff.

(** The requests among the events of a log. *)
Definition requests (t : list Event) : list Request :=
  omap (λ ev, match ev with EvRequest r => Some r | _ => None end) t.

Definition authorization (token : option string) : list (string * string) :=
  [("Authorization", "Bearer " +:+ show_token token)].

(** * The [ProjectInfo] component *)

Module ProjectInfo.

(** The [projectId] prop: [string | null | undefined]. *)
Inductive ProjectId :=
| IdUndefined
| IdNull
| IdString (s : string).

(** [!projectId] *)
Definition not_id (projectId : ProjectId) : bool :=
  match projectId with
  | IdUndefined | IdNull => true
  | IdString s => String.eqb s ""
  end.

(** [`${projectId}`] *)
Definition show_id (projectId : ProjectId) : string :=
  match projectId with
  | IdUndefined => "undefined"
  | IdNull => "null"
  | IdString s => s
  end.

(** The three [useState] cells. *)
Record State := {
  project : option (gmap string json);
  loading : bool;
  error : option string;
}.

Definition initial : State :=
  {| project := None; loading := true; error := None |}.

Definition setProject (p : option (gmap string json)) : Eff State unit :=
  modify (λ st, {| project := p; loading := loading st; error := error st |}).

Definition setLoading (b : bool) : Eff State unit :=
  modify (λ st, {| project := project st; loading := b; error := error st |}).

Definition setError (e : option string) : Eff State unit :=
  modify (λ st, {| project := project st; loading := loading st; error := e |}).

(** The message chosen in the [catch] block. *)
Definition errorMessage (err : Exn) : string :=
  match err with
  | AxiosError (Some response) =>
      if (status response =? 404)%N then "Project not found"
      else "Error: " +:+ pretty (status response) +:+ " - "
             +:+ statusText response
  | _ => "Failed to load project information"
  end.

Definition fetchProjectInfo (env : Env) (projectId : ProjectId)
  : Eff State unit :=
  if not_id projectId then
    setError (Some "Select a project or create a new one");;
    setLoading false
  else
    setLoading true;;
    finally
      (try_catch
         (token ← lift (getToken env);
          let projectUrl :=
            getApiEndpoint env ("api/projects/" +:+ show_id projectId) in
          response ← axios_get env projectUrl (authorization token);
          status_ ← lift (member (data response) "status");
          progress_ ← lift (member (data response) "progress");
          let projectData :=
            <["progress" := js_or progress_ (JNum 0)]>
              (<["status" := js_or status_ (JStr "active")]>
                 (spread (data response))) in
          setProject (Some projectData);;
          setError None)
         (λ err,
            console_error "Error fetching project:";;
            setError (Some (errorMessage err));;
            setProject None))
      (setLoading false).

(** What the component shows: the loading line, the red error line, or
    the project card. *)
Inductive View :=
| ViewLoading
| ViewError (text : string)
| ViewProject (p : gmap string json).

(** Truthiness of the [string | null] error cell, and [error || d]. *)
Definition is_set (e : option string) : bool :=
  match e with
  | Some s => negb (String.eqb s "")
  | None => false
  end.

Definition or_text (e : option string) (d : string) : string :=
  match e with
  | Some s => if String.eqb s "" then d else s
  | None => d
  end.

Definition render (st : State) : View :=
  if loading st then ViewLoading
  else
    match project st with
    | Some p =>
        if is_set (error st)
        then ViewError (or_text (error st) "Project not found")
        else ViewProject p
    | None => ViewError (or_text (error st) "Project not found")
    end.

(** ** The project card

    The text of the card shown for a stored project.  The dash length of the
    progress ring ([(project.progress / 100) * 113]) is a floating-point
    product; it puts no text in the page and cannot throw, and is left out. *)

(** The text React puts in the page for a child [{v}]: nothing for [null]
    and booleans, the decimal numeral of a number (which is what [String(n)]
    gives for the integers [JNum] stands for), a string as it is, the
    elements of an array one after the other; an object is not a valid child
    and makes the render throw ([None]). *)
Fixpoint child_text (v : json) : option string :=
  match v with
  | JNull => Some ""
  | JBool _ => Some ""
  | JNum n => Some (pretty n)
  | JStr s => Some s
  | JArr l =>
      (fix children (l : list json) : option string :=
         match l with
         | [] => Some ""
         | x :: rest =>
             match child_text x, children rest with
             | Some a, Some b => Some (a +:+ b)
             | _, _ => None
             end
         end) l
  | JObj _ => None
  end.

(** The same for an expression that may be [undefined], which renders
    nothing. *)
Definition child_text_opt (v : option json) : option string :=
  match v with
  | Some x => child_text x
  | None => Some ""
  end.

(** What [{v && <block>{v}</block>}] leaves in the page: the block when [v]
    is truthy; otherwise [v] itself is the child, which shows nothing unless
    it is the number 0. *)
Inductive Slot :=
| Hidden
| Stray (text : string)
| Block (text : string).

Definition guarded (v : option json) : option Slot :=
  if truthy v then Block <$> child_text_opt v
  else (λ t, if String.eqb t "" then Hidden else Stray t) <$> child_text_opt v.

Record Card := {
  heading : string;
  description_slot : Slot;
  progress_ring : string;
  progress_label : string;
  status_label : string;
  team_label : string;
  deadline_slot : Slot;
}.

Definition render_card (p : gmap string json) : option Card :=
  name_ ← child_text_opt (p !! "name");
  description_ ← guarded (p !! "description");
  progress_ ← child_text_opt (p !! "progress");
  status_ ← child_text_opt (p !! "status");
  team_ ← child_text (js_or (p !! "teamMembers") (JNum 0));
  deadline_ ← guarded (p !! "deadline");
  Some {| heading := name_;
          description_slot := description_;
          progress_ring := progress_ +:+ "%";
          progress_label := progress_ +:+ "%";
          status_label := status_;
          team_label := team_ +:+ " members";
          deadline_slot := deadline_ |}.

(** The fields the card reads, and the values that are no container. *)
Definition displayed : list string :=
  ["name"; "description"; "progress"; "status"; "teamMembers"; "deadline"].

Definition primitive (v : option json) : bool :=
  match v with
  | Some (JArr _) => false
  | Some (JObj _) => false
  | _ => true
  end.

End ProjectInfo.

(** * The [SprintFormModal] component *)

Module SprintFormModal.

Record Props := {
  isOpen : bool;
  workspaceName : string;
  (** whether the optional [onSprintCreated] callback was passed *)
  onSprintCreated : bool;
}.

(** The nine [useState] cells.  [projects] holds whatever the server
    answered, and [error] whatever [setError] was given: the cast in the
    [catch] block does not check that [response.data.error] is a string. *)
Record State := {
  name : string;
  goal : string;
  startDate : string;
  endDate : string;
  selectedProjectId : string;
  projects : json;
  isLoading : bool;
  error : json;
  projectsError : string;
}.

Definition initial : State :=
  {| name := ""; goal := ""; startDate := ""; endDate := "";
     selectedProjectId := ""; projects := JArr []; isLoading := false;
     error := JStr ""; projectsError := "" |}.

Definition setProjects (v : json) : Eff State unit :=
  modify (λ st,
    {| name := name st; goal := goal st; startDate := startDate st;
       endDate := endDate st; selectedProjectId := selectedProjectId st;
       projects := v; isLoading := isLoading st; error := error st;
       projectsError := projectsError st |}).

Definition setIsLoading (b : bool) : Eff State unit :=
  modify (λ st,
    {| name := name st; goal := goal st; startDate := startDate st;
       endDate := endDate st; selectedProjectId := selectedProjectId st;
       projects := projects st; isLoading := b; error := error st;
       projectsError := projectsError st |}).

(** [st] with another error message. *)
Definition with_error (st : State) (v : json) : State :=
  {| name := name st; goal := goal st; startDate := startDate st;
     endDate := endDate st; selectedProjectId := selectedProjectId st;
     projects := projects st; isLoading := isLoading st; error := v;
     projectsError := projectsError st |}.

Definition setError (v : json) : Eff State unit :=
  modify (λ st, with_error st v).

Definition setProjectsError (v : string) : Eff State unit :=
  modify (λ st,
    {| name := name st; goal := goal st; startDate := startDate st;
       endDate := endDate st; selectedProjectId := selectedProjectId st;
       projects := projects st; isLoading := isLoading st; error := error st;
       projectsError := v |}).

(** The setters behind the form's inputs. *)
Definition setName (v : string) : Eff State unit :=
  modify (λ st,
    {| name := v; goal := goal st; startDate := startDate st;
       endDate := endDate st; selectedProjectId := selectedProjectId st;
       projects := projects st; isLoading := isLoading st; error := error st;
       projectsError := projectsError st |}).

Definition setGoal (v : string) : Eff State unit :=
  modify (λ st,
    {| name := name st; goal := v; startDate := startDate st;
       endDate := endDate st; selectedProjectId := selectedProjectId st;
       projects := projects st; isLoading := isLoading st; error := error st;
       projectsError := projectsError st |}).

Definition setStartDate (v : string) : Eff State unit :=
  modify (λ st,
    {| name := name st; goal := goal st; startDate := v;
       endDate := endDate st; selectedProjectId := selectedProjectId st;
       projects := projects st; isLoading := isLoading st; error := error st;
       projectsError := projectsError st |}).

Definition setEndDate (v : string) : Eff State unit :=
  modify (λ st,
    {| name := name st; goal := goal st; startDate := startDate st;
       endDate := v; selectedProjectId := selectedProjectId st;
       projects := projects st; isLoading := isLoading st; error := error st;
       projectsError := projectsError st |}).

Definition setSelectedProjectId (v : string) : Eff State unit :=
  modify (λ st,
    {| name := name st; goal := goal st; startDate := startDate st;
       endDate := endDate st; selectedProjectId := v;
       projects := projects st; isLoading := isLoading st; error := error st;
       projectsError := projectsError st |}).

(** The calendar callbacks.  [Date] and date-fns' [format] are not part of
    the component: [format_ymd d] stands for [format(d, "yyyy-MM-dd")], and
    the callback gets [undefined] ([None]) when a day is deselected. *)
Definition handleStartDateChange {Date : Type} (format_ymd : Date → string)
    (date : option Date) : Eff State unit :=
  match date with
  | Some d => setStartDate (format_ymd d)
  | None => mret tt
  end.

Definition handleEndDateChange {Date : Type} (format_ymd : Date → string)
    (date : option Date) : Eff State unit :=
  match date with
  | Some d => setEndDate (format_ymd d)
  | None => mret tt
  end.

(** The first effect: fetch the workspace's projects when the modal opens. *)
Definition fetchProjects (env : Env) (props : Props) : Eff State unit :=
  if isOpen props && negb (String.eqb (workspaceName props) "") then
    try_catch
      (token ← lift (getToken env);
       response ←
         axios_get env
           (api_getApiEndpoint env
              ("/api/projects/workspace/" +:+ workspaceName props))
           (authorization token);
       setProjects (data response))
      (λ err,
         setProjectsError "Failed to fetch projects";;
         console_error "Error fetching projects:")
  else ret tt.

(** The second effect: reset the form when the modal opens. *)
Definition resetForm (props : Props) : Eff State unit :=
  if isOpen props then
    modify (λ st,
      {| name := ""; goal := ""; startDate := ""; endDate := "";
         selectedProjectId := ""; projects := projects st;
         isLoading := isLoading st; error := JStr "";
         projectsError := "" |})
  else ret tt.

(** [(err as ErrorWithResponse).response] *)
Definition response_of (err : Exn) : option HttpResponse :=
  match err with
  | AxiosError r => r
  | _ => None
  end.

(** The JSON body of the create request. *)
Definition sprint_body (st : State) : json :=
  JObj (<["name" := JStr (name st)]>
       (<["goal" := JStr (goal st)]>
       (<["startDate" := js_or (Some (JStr (startDate st))) JNull]>
       (<["endDate" := js_or (Some (JStr (endDate st))) JNull]>
       (<["projectId" := JStr (selectedProjectId st)]> ∅))))).

Definition handleSubmit (env : Env) (props : Props) : Eff State unit :=
  emit EvPreventDefault;;
  st ← get;
  if String.eqb (selectedProjectId st) "" then
    setError (JStr "Please select a project")
  else if String.eqb (name st) "" then
    setError (JStr "Sprint name is required")
  else
    setIsLoading true;;
    setError (JStr "");;
    finally
      (try_catch
         (token ← lift (getToken env);
          axios_post env (api_getApiEndpoint env "/api/sprints/create")
            (sprint_body st) (authorization token);;
          emit EvOnClose;;
          if onSprintCreated props then emit EvOnSprintCreated else ret tt)
         (λ err,
            let errorResponse := response_of err in
            setError
              (js_or (opt_member (data <$> errorResponse) "error")
                 (JStr "Failed to create sprint"));;
            console_error "Error creating sprint:"))
      (setIsLoading false).


(** The choices of the project [<select>] after the empty one:
    [projects.map((project) => <option value={project.id}>{project.name}
    </option>)], each with its value and its text.  [None] when the render
    throws: [projects] has no [map] unless it is an array, reading [id] of a
    [null] element throws, and an object is no valid option text. *)
Definition project_option (p : json) : option (option json * string) :=
  match member p "id", member p "name" with
  | inr id_, inr name_ =>
      text ← ProjectInfo.child_text_opt name_; Some (id_, text)
  | _, _ => None
  end.

Definition project_options (projects : json)
    : option (list (option json * string)) :=
  match projects with
  | JArr l => mapM project_option l
  | _ => None
  end.

(** A project as the list endpoint sends it. *)
Definition listed (row : string * string) : json :=
  JObj (<["id" := JStr row.1]> (<["name" := JStr row.2]> ∅)).

(** A state in which a submission is over: loading ended, error [v], the
    rest as in [st]. *)
Definition settled (st : State) (v : json) : State :=
  {| name := name st; goal := goal st; startDate := startDate st;
     endDate := endDate st; selectedProjectId := selectedProjectId st;
     projects := projects st; isLoading := false; error := v;
     projectsError := projectsError st |}.

(** The blank form [resetForm] leaves when the modal is open. *)
Definition blank (st : State) : State :=
  {| name := ""; goal := ""; startDate := ""; endDate := "";
     selectedProjectId := ""; projects := projects st;
     isLoading := isLoading st; error := JStr ""; projectsError := "" |}.

End SprintFormModal.

(** * The relational schema

    One record per [model], one inductive per [enum], each in a module of
    the model's or enum's name.  [String] is [string],
    [Int] a PostgreSQL [integer] kept as [Z] with its range checked,
    [DateTime] a timestamp kept as [Z], [T?] is [option T].  Relation fields
    ([workspace Workspace @relation(...)], [tasks Task[]]) are not columns:
    they show up below as foreign keys and referential actions. *)

Module Schema.

Module UserRole.
Inductive t := ADMIN | MANAGER | MEMBER | GUEST.
End UserRole.

Module ProjectStatus.
Inductive t := PLANNING | ACTIVE | COMPLETED | ARCHIVED.
End ProjectStatus.

Module TaskType.
Inductive t := TASK | BUG | STORY | EPIC.
End TaskType.

Module TaskStatus.
Inductive t := TODO | IN_PROGRESS | DONE | ARCHIVED.
End TaskStatus.

Module Priority.
Inductive t := HIGH | MEDIUM | LOW.
End Priority.

Module SprintStatus.
Inductive t := PLANNING | ACTIVE | COMPLETED | CANCELLED.
End SprintStatus.

Module MilestoneStatus.
Inductive t := COMPLETED | IN_PROGRESS | UPCOMING | AT_RISK | BLOCKED.
End MilestoneStatus.

Module ViewType.
Inductive t := TABLE | GALLERY | LIST | CALENDAR | KANBAN | TIMELINE.
End ViewType.

Module ActivityType.
Inductive t :=
| CREATED | UPDATED | DELETED | COMMENTED | ASSIGNED | STATUS_CHANGED
| COMPLETED.
End ActivityType.

Module User.
Record t := {
  id : string;
  email : option string;
  name : option string;
  role : UserRole.t;
  createdAt : Z;
  updatedAt : Z;
}.
End User.

Module Room.
Record t := {
  id : string;
  name : string;
  ownerId : string;
  createdAt : Z;
  whiteboardData : option json;
}.
End Room.

Module ChatMessage.
Record t := {
  id : string;
  roomName : string;
  userId : string;
  message : string;
  createdAt : Z;
}.
End ChatMessage.

Module Workspace.
Record t := {
  id : string;
  name : string;
  createdAt : Z;
  updatedAt : Z;
}.
End Workspace.

Module WorkspaceMember.
Record t := {
  id : string;
  workspaceId : string;
  userId : string;
  role : UserRole.t;
  joinedAt : Z;
}.
End WorkspaceMember.

Module Project.
Record t := {
  id : string;
  name : string;
  description : option string;
  key : string;
  status : ProjectStatus.t;
  progress : Z;
  createdAt : Z;
  updatedAt : Z;
  workspaceId : string;
}.
End Project.

Module Task.
Record t := {
  id : string;
  title : string;
  description : option string;
  type : TaskType.t;
  status : TaskStatus.t;
  priority : Priority.t;
  storyPoints : option Z;
  dueDate : option Z;
  createdAt : Z;
  updatedAt : Z;
  projectId : string;
  sprintId : option string;
  assigneeId : option string;
  creatorId : string;
  parentId : option string;
}.

(** [SET sprintId = NULL] *)
Definition clear_sprint (r : t) : t :=
  {| id := id r; title := title r; description := description r;
     type := type r; status := status r; priority := priority r;
     storyPoints := storyPoints r; dueDate := dueDate r;
     createdAt := createdAt r; updatedAt := updatedAt r;
     projectId := projectId r; sprintId := None;
     assigneeId := assigneeId r; creatorId := creatorId r;
     parentId := parentId r |}.

(** [SET assigneeId = NULL] *)
Definition clear_assignee (r : t) : t :=
  {| id := id r; title := title r; description := description r;
     type := type r; status := status r; priority := priority r;
     storyPoints := storyPoints r; dueDate := dueDate r;
     createdAt := createdAt r; updatedAt := updatedAt r;
     projectId := projectId r; sprintId := sprintId r;
     assigneeId := None; creatorId := creatorId r;
     parentId := parentId r |}.
End Task.

Module TaskTag.
Record t := {
  id : string;
  name : string;
  color : option string;
  taskId : string;
}.
End TaskTag.

Module Sprint.
Record t := {
  id : string;
  name : string;
  goal : option string;
  status : SprintStatus.t;
  startDate : option Z;
  endDate : option Z;
  progress : Z;
  createdAt : Z;
  updatedAt : Z;
  projectId : string;
  ownerId : string;
}.
End Sprint.

Module Milestone.
Record t := {
  id : string;
  title : string;
  description : option string;
  status : MilestoneStatus.t;
  progress : Z;
  startDate : option Z;
  endDate : option Z;
  createdAt : Z;
  updatedAt : Z;
  projectId : string;
  ownerId : string;
}.
End Milestone.

Module MilestoneDependency.
Record t := {
  id : string;
  milestoneId : string;
  dependsOnId : string;
}.
End MilestoneDependency.

Module Activity.
Record t := {
  id : string;
  type : ActivityType.t;
  content : string;
  createdAt : Z;
  userId : string;
  taskId : option string;
}.
End Activity.

Module Notification.
Record t := {
  id : string;
  title : string;
  content : string;
  isRead : bool;
  createdAt : Z;
  userId : string;
}.
End Notification.

(** A database state: the rows of every table. *)
Record DB := {
  users : list User.t;
  rooms : list Room.t;
  chatMessages : list ChatMessage.t;
  workspaces : list Workspace.t;
  workspaceMembers : list WorkspaceMember.t;
  projects : list Project.t;
  tasks : list Task.t;
  taskTags : list TaskTag.t;
  sprints : list Sprint.t;
  milestones : list Milestone.t;
  milestoneDependencies : list MilestoneDependency.t;
  activities : list Activity.t;
  notifications : list Notification.t;
}.

Definition empty : DB :=
  {| users := []; rooms := []; chatMessages := []; workspaces := [];
     workspaceMembers := []; projects := []; tasks := []; taskTags := [];
     sprints := []; milestones := []; milestoneDependencies := [];
     activities := []; notifications := [] |}.

(** ** Constraints

    The checks the database makes on every write, one per attribute of the
    schema: [@id] and [@unique] columns, [@@unique] column pairs, the foreign
    key of every [@relation], and the range of every [Int] column. *)

Section Checks.
Context {K : Type} `{EqDecision K}.

(** No two rows share a key. *)
Definition unique_on {A} (key : A → K) (rows : list A) : bool :=
  bool_decide (NoDup (key <$> rows)).

(** A nullable unique column: rows holding [NULL] never conflict. *)
Definition unique_on_opt {A} (key : A → option K) (rows : list A) : bool :=
  bool_decide (NoDup (omap key rows)).

(** Every row's foreign key is the key of a row of the target table. *)
Definition references {A B} (fk : A → K) (pk : B → K)
    (rows : list A) (targets : list B) : bool :=
  forallb (λ r, bool_decide (fk r ∈ pk <$> targets)) rows.

(** The same for a nullable foreign key: [NULL] refers to nothing. *)
Definition references_opt {A B} (fk : A → option K) (pk : B → K)
    (rows : list A) (targets : list B) : bool :=
  forallb (λ r, match fk r with
                | Some k => bool_decide (k ∈ pk <$> targets)
                | None => true
                end) rows.
End Checks.

(** PostgreSQL [integer]: 32 bits, signed. *)
Definition int4 (n : Z) : bool := ((-2147483648 <=? n) && (n <=? 2147483647))%Z.

Definition int4_opt (n : option Z) : bool :=
  match n with
  | Some n => int4 n
  | None => true
  end.

(** [@id] on every model. *)
Definition primary_keys (db : DB) : bool :=
  unique_on User.id (users db)
  && unique_on Room.id (rooms db)
  && unique_on ChatMessage.id (chatMessages db)
  && unique_on Workspace.id (workspaces db)
  && unique_on WorkspaceMember.id (workspaceMembers db)
  && unique_on Project.id (projects db)
  && unique_on Task.id (tasks db)
  && unique_on TaskTag.id (taskTags db)
  && unique_on Sprint.id (sprints db)
  && unique_on Milestone.id (milestones db)
  && unique_on MilestoneDependency.id (milestoneDependencies db)
  && unique_on Activity.id (activities db)
  && unique_on Notification.id (notifications db).

(** [@unique] and [@@unique]. *)
Definition member_pair (r : WorkspaceMember.t) : string * string :=
  (WorkspaceMember.workspaceId r, WorkspaceMember.userId r).

Definition tag_pair (r : TaskTag.t) : string * string :=
  (TaskTag.taskId r, TaskTag.name r).

Definition dependency_pair (r : MilestoneDependency.t) : string * string :=
  (MilestoneDependency.milestoneId r, MilestoneDependency.dependsOnId r).

Definition uniques (db : DB) : bool :=
  unique_on_opt User.email (users db)
  && unique_on Room.name (rooms db)
  && unique_on Workspace.name (workspaces db)
  && unique_on member_pair (workspaceMembers db)
  && unique_on tag_pair (taskTags db)
  && unique_on dependency_pair (milestoneDependencies db).

(** [@relation(fields: [...], references: [...])]. *)
Definition foreign_keys (db : DB) : bool :=
  references Room.ownerId User.id (rooms db) (users db)
  && references ChatMessage.roomName Room.name (chatMessages db) (rooms db)
  && references ChatMessage.userId User.id (chatMessages db) (users db)
  && references WorkspaceMember.workspaceId Workspace.id
       (workspaceMembers db) (workspaces db)
  && references WorkspaceMember.userId User.id (workspaceMembers db) (users db)
  && references Project.workspaceId Workspace.id (projects db) (workspaces db)
  && references Task.projectId Project.id (tasks db) (projects db)
  && references_opt Task.sprintId Sprint.id (tasks db) (sprints db)
  && references_opt Task.assigneeId User.id (tasks db) (users db)
  && references Task.creatorId User.id (tasks db) (users db)
  && references TaskTag.taskId Task.id (taskTags db) (tasks db)
  && references Sprint.projectId Project.id (sprints db) (projects db)
  && references Sprint.ownerId User.id (sprints db) (users db)
  && references Milestone.projectId Project.id (milestones db) (projects db)
  && references Milestone.ownerId User.id (milestones db) (users db)
  && references MilestoneDependency.milestoneId Milestone.id
       (milestoneDependencies db) (milestones db)
  && references MilestoneDependency.dependsOnId Milestone.id
       (milestoneDependencies db) (milestones db)
  && references Activity.userId User.id (activities db) (users db)
  && references_opt Activity.taskId Task.id (activities db) (tasks db)
  && references Notification.userId User.id (notifications db) (users db).

(** [Int] and [Int?] columns. *)
Definition int_ranges (db : DB) : bool :=
  forallb (λ r, int4 (Project.progress r)) (projects db)
  && forallb (λ r, int4_opt (Task.storyPoints r)) (tasks db)
  && forallb (λ r, int4 (Sprint.progress r)) (sprints db)
  && forallb (λ r, int4 (Milestone.progress r)) (milestones db).

(** A state the schema admits. *)
Definition valid (db : DB) : bool :=
  primary_keys db && uniques db && foreign_keys db && int_ranges db.

(** ** Deleting rows

    What the database does when rows go away, following the referential
    action of each relation that points at the table: [onDelete: Cascade]
    where the schema says so; a relation without [onDelete] gets the ORM's
    default, which is [SetNull] when the relation is optional ([Task.sprint])
    and [Restrict] when it is required.  No required relation without
    [onDelete] points at [Workspace], [Project], [Task], [Sprint] or
    [Milestone], so nothing below is ever refused. *)

Definition among (ids : list string) (k : string) : bool :=
  bool_decide (k ∈ ids).

Definition among_opt (ids : list string) (k : option string) : bool :=
  match k with
  | Some k => among ids k
  | None => false
  end.

(** Delete the tasks selected by [del]; their tags and activities follow
    ([TaskTag.task] and [Activity.task] are [onDelete: Cascade]). *)
Definition delete_tasks (del : Task.t → bool) (db : DB) : DB :=
  let gone := Task.id <$> filter del (tasks db) in
  {| users := users db; rooms := rooms db; chatMessages := chatMessages db;
     workspaces := workspaces db; workspaceMembers := workspaceMembers db;
     projects := projects db;
     tasks := filter (λ r, negb (del r)) (tasks db);
     taskTags :=
       filter (λ r, negb (among gone (TaskTag.taskId r))) (taskTags db);
     sprints := sprints db; milestones := milestones db;
     milestoneDependencies := milestoneDependencies db;
     activities :=
       filter (λ r, negb (among_opt gone (Activity.taskId r))) (activities db);
     notifications := notifications db |}.

(** Delete the sprints selected by [del]; the tasks that were in them stay
    and lose their sprint ([Task.sprint] is optional and has no [onDelete]). *)
Definition delete_sprints (del : Sprint.t → bool) (db : DB) : DB :=
  let gone := Sprint.id <$> filter del (sprints db) in
  {| users := users db; rooms := rooms db; chatMessages := chatMessages db;
     workspaces := workspaces db; workspaceMembers := workspaceMembers db;
     projects := projects db;
     tasks :=
       (λ r, if among_opt gone (Task.sprintId r) then Task.clear_sprint r
             else r) <$> tasks db;
     taskTags := taskTags db;
     sprints := filter (λ r, negb (del r)) (sprints db);
     milestones := milestones db;
     milestoneDependencies := milestoneDependencies db;
     activities := activities db; notifications := notifications db |}.

(** Delete the milestones selected by [del]; every dependency edge with a
    deleted end follows (both relations are [onDelete: Cascade]). *)
Definition delete_milestones (del : Milestone.t → bool) (db : DB) : DB :=
  let gone := Milestone.id <$> filter del (milestones db) in
  {| users := users db; rooms := rooms db; chatMessages := chatMessages db;
     workspaces := workspaces db; workspaceMembers := workspaceMembers db;
     projects := projects db; tasks := tasks db; taskTags := taskTags db;
     sprints := sprints db;
     milestones := filter (λ r, negb (del r)) (milestones db);
     milestoneDependencies :=
       filter (λ r, negb (among gone (MilestoneDependency.milestoneId r))
                    && negb (among gone (MilestoneDependency.dependsOnId r)))
         (milestoneDependencies db);
     activities := activities db; notifications := notifications db |}.

Definition remove_projects (del : Project.t → bool) (db : DB) : DB :=
  {| users := users db; rooms := rooms db; chatMessages := chatMessages db;
     workspaces := workspaces db; workspaceMembers := workspaceMembers db;
     projects := filter (λ r, negb (del r)) (projects db);
     tasks := tasks db; taskTags := taskTags db; sprints := sprints db;
     milestones := milestones db;
     milestoneDependencies := milestoneDependencies db;
     activities := activities db; notifications := notifications db |}.

(** Delete the projects selected by [del]; their tasks, sprints and
    milestones follow ([Task.project], [Sprint.project] and
    [Milestone.project] are [onDelete: Cascade]). *)
Definition delete_projects (del : Project.t → bool) (db : DB) : DB :=
  let gone := Project.id <$> filter del (projects db) in
  delete_milestones (λ r, among gone (Milestone.projectId r))
    (delete_sprints (λ r, among gone (Sprint.projectId r))
       (delete_tasks (λ r, among gone (Task.projectId r))
          (remove_projects del db))).

Definition remove_workspaces (del : Workspace.t → bool) (db : DB) : DB :=
  let gone := Workspace.id <$> filter del (workspaces db) in
  {| users := users db; rooms := rooms db; chatMessages := chatMessages db;
     workspaces := filter (λ r, negb (del r)) (workspaces db);
     workspaceMembers :=
       filter (λ r, negb (among gone (WorkspaceMember.workspaceId r)))
         (workspaceMembers db);
     projects := projects db; tasks := tasks db; taskTags := taskTags db;
     sprints := sprints db; milestones := milestones db;
     milestoneDependencies := milestoneDependencies db;
     activities := activities db; notifications := notifications db |}.

(** Delete the workspaces selected by [del]; their memberships and projects
    follow ([WorkspaceMember.workspace] and [Project.workspace] are
    [onDelete: Cascade]). *)
Definition delete_workspaces (del : Workspace.t → bool) (db : DB) : DB :=
  let gone := Workspace.id <$> filter del (workspaces db) in
  delete_projects (λ r, among gone (Project.workspaceId r))
    (remove_workspaces del db).

(** [DELETE FROM "Workspace" WHERE id = w] and [DELETE FROM "Project" WHERE
    id = p]: [None] when there is no such row. *)
Definition deleteWorkspace (w : string) (db : DB) : option DB :=
  if among (Workspace.id <$> workspaces db) w
  then Some (delete_workspaces (λ r, String.eqb (Workspace.id r) w) db)
  else None.

Definition deleteProject (p : string) (db : DB) : option DB :=
  if among (Project.id <$> projects db) p
  then Some (delete_projects (λ r, String.eqb (Project.id r) p) db)
  else None.

(** [DELETE ... WHERE id = k] on the three child tables. *)
Definition deleteTask (k : string) (db : DB) : option DB :=
  if among (Task.id <$> tasks db) k
  then Some (delete_tasks (λ r, String.eqb (Task.id r) k) db)
  else None.

Definition deleteSprint (k : string) (db : DB) : option DB :=
  if among (Sprint.id <$> sprints db) k
  then Some (delete_sprints (λ r, String.eqb (Sprint.id r) k) db)
  else None.

Definition deleteMilestone (k : string) (db : DB) : option DB :=
  if among (Milestone.id <$> milestones db) k
  then Some (delete_milestones (λ r, String.eqb (Milestone.id r) k) db)
  else None.

(** ** Deleting a user

    [WorkspaceMember.user] and [Notification.user] are [onDelete: Cascade];
    [Task.assignee] is optional without [onDelete] ([SetNull]); [Room.owner],
    [ChatMessage.user], [Task.creator], [Sprint.owner], [Milestone.owner]
    and [Activity.user] are required without [onDelete] ([Restrict]): while
    such a row points at the user the delete is refused. *)

Inductive Refusal :=
| NotFound
| StillReferenced.

Definition user_referenced (ids : list string) (db : DB) : bool :=
  existsb (λ r, among ids (Room.ownerId r)) (rooms db)
  || existsb (λ r, among ids (ChatMessage.userId r)) (chatMessages db)
  || existsb (λ r, among ids (Task.creatorId r)) (tasks db)
  || existsb (λ r, among ids (Sprint.ownerId r)) (sprints db)
  || existsb (λ r, among ids (Milestone.ownerId r)) (milestones db)
  || existsb (λ r, among ids (Activity.userId r)) (activities db).

Definition delete_users (del : User.t → bool) (db : DB) : DB :=
  let gone := User.id <$> filter del (users db) in
  {| users := filter (λ r, negb (del r)) (users db);
     rooms := rooms db; chatMessages := chatMessages db;
     workspaces := workspaces db;
     workspaceMembers :=
       filter (λ r, negb (among gone (WorkspaceMember.userId r)))
         (workspaceMembers db);
     projects := projects db;
     tasks :=
       (λ r, if among_opt gone (Task.assigneeId r) then Task.clear_assignee r
             else r) <$> tasks db;
     taskTags := taskTags db; sprints := sprints db;
     milestones := milestones db;
     milestoneDependencies := milestoneDependencies db;
     activities := activities db;
     notifications :=
       filter (λ r, negb (among gone (Notification.userId r)))
         (notifications db) |}.

Definition deleteUser (k : string) (db : DB) : Refusal + DB :=
  if among (User.id <$> users db) k then
    if user_referenced
         (User.id <$> filter (λ r, String.eqb (User.id r) k) (users db)) db
    then inl StillReferenced
    else inr (delete_users (λ r, String.eqb (User.id r) k) db)
  else inl NotFound.

(** ** Adding a dependency edge

    [INSERT INTO "MilestoneDependency"]: the row is refused when its id or
    its ([milestoneId], [dependsOnId]) pair is taken, or when one of its ends
    is no milestone.  Nothing else is looked at. *)
Definition createMilestoneDependency (r : MilestoneDependency.t) (db : DB)
    : option DB :=
  if negb (among (MilestoneDependency.id <$> milestoneDependencies db)
             (MilestoneDependency.id r))
     && negb (bool_decide
                (dependency_pair r
                 ∈ dependency_pair <$> milestoneDependencies db))
     && among (Milestone.id <$> milestones db)
          (MilestoneDependency.milestoneId r)
     && among (Milestone.id <$> milestones db)
          (MilestoneDependency.dependsOnId r)
  then
    Some {| users := users db; rooms := rooms db;
            chatMessages := chatMessages db; workspaces := workspaces db;
            workspaceMembers := workspaceMembers db; projects := projects db;
            tasks := tasks db; taskTags := taskTags db; sprints := sprints db;
            milestones := milestones db;
            milestoneDependencies := milestoneDependencies db ++ [r];
            activities := activities db; notifications := notifications db |}
  else None.

(** ** Milestone dependencies as a graph *)

(** [depends_on db a b]: some row says milestone [a] depends on [b]. *)
Definition depends_on (db : DB) (a b : string) : Prop :=
  (a, b) ∈ dependency_pair <$> milestoneDependencies db.

(** A directed cycle: a milestone that reaches itself in one or more steps. *)
Definition cyclic (db : DB) : Prop :=
  ∃ m, tc (depends_on db) m m.

(** No row of [Project], [Task], [Sprint] or [Milestone] is an orphan: its
    parent row exists. *)
Definition no_orphans (db : DB) : Prop :=
  (∀ r, r ∈ projects db →
        ∃ t, t ∈ workspaces db ∧ Workspace.id t = Project.workspaceId r)
  ∧ (∀ r, r ∈ tasks db →
          ∃ t, t ∈ projects db ∧ Project.id t = Task.projectId r)
  ∧ (∀ r, r ∈ sprints db →
          ∃ t, t ∈ projects db ∧ Project.id t = Sprint.projectId r)
  ∧ (∀ r, r ∈ milestones db →
          ∃ t, t ∈ projects db ∧ Project.id t = Milestone.projectId r).

(** The range the specification calls a progress percentage. *)
Definition percentage (n : Z) : Prop := (0 ≤ n ≤ 100)%Z.

End Schema.

(** * A sample database

    Two workspaces, one project in each, tasks of both projects in the same
    sprint, two milestones that depend on each other, and progress values
    that are no percentages. *)

Module Sample.
Import Schema.

Definition user (i : string) : User.t :=
  {| User.id := i; User.email := None; User.name := None;
     User.role := UserRole.MEMBER; User.createdAt := 0; User.updatedAt := 0 |}.

Definition workspace (i n : string) : Workspace.t :=
  {| Workspace.id := i; Workspace.name := n;
     Workspace.createdAt := 0; Workspace.updatedAt := 0 |}.

Definition membership (i w u : string) : WorkspaceMember.t :=
  {| WorkspaceMember.id := i; WorkspaceMember.workspaceId := w;
     WorkspaceMember.userId := u; WorkspaceMember.role := UserRole.MEMBER;
     WorkspaceMember.joinedAt := 0 |}.

Definition project (i w : string) (progress : Z) : Project.t :=
  {| Project.id := i; Project.name := i; Project.description := None;
     Project.key := "PIX"; Project.status := ProjectStatus.ACTIVE;
     Project.progress := progress; Project.createdAt := 0;
     Project.updatedAt := 0; Project.workspaceId := w |}.

Definition task (i p : string) (s : option string) : Task.t :=
  {| Task.id := i; Task.title := i; Task.description := None;
     Task.type := TaskType.TASK; Task.status := TaskStatus.TODO;
     Task.priority := Priority.MEDIUM;
     Task.storyPoints := None; Task.dueDate := None; Task.createdAt := 0;
     Task.updatedAt := 0; Task.projectId := p; Task.sprintId := s;
     Task.assigneeId := None; Task.creatorId := "u1";
     Task.parentId := None |}.

Definition tag (i t n : string) : TaskTag.t :=
  {| TaskTag.id := i; TaskTag.name := n; TaskTag.color := None;
     TaskTag.taskId := t |}.

Definition sprint (i p : string) (progress : Z) : Sprint.t :=
  {| Sprint.id := i; Sprint.name := i; Sprint.goal := None;
     Sprint.status := SprintStatus.PLANNING; Sprint.startDate := None;
     Sprint.endDate := None; Sprint.progress := progress;
     Sprint.createdAt := 0; Sprint.updatedAt := 0; Sprint.projectId := p;
     Sprint.ownerId := "u1" |}.

Definition milestone (i p : string) (progress : Z) : Milestone.t :=
  {| Milestone.id := i; Milestone.title := i; Milestone.description := None;
     Milestone.status := MilestoneStatus.UPCOMING; Milestone.progress := progress;
     Milestone.startDate := None; Milestone.endDate := None;
     Milestone.createdAt := 0; Milestone.updatedAt := 0;
     Milestone.projectId := p; Milestone.ownerId := "u1" |}.

Definition dependency (i a b : string) : MilestoneDependency.t :=
  {| MilestoneDependency.id := i; MilestoneDependency.milestoneId := a;
     MilestoneDependency.dependsOnId := b |}.

Definition activity (i : string) (t : option string) : Activity.t :=
  {| Activity.id := i; Activity.type := ActivityType.CREATED; Activity.content := "";
     Activity.createdAt := 0; Activity.userId := "u1"; Activity.taskId := t |}.

Definition db : DB :=
  {| users := [user "u1"; user "u2"];
     rooms := [];
     chatMessages := [];
     workspaces := [workspace "w1" "acme"; workspace "w2" "globex"];
     workspaceMembers :=
       [membership "wm1" "w1" "u1"; membership "wm2" "w1" "u2";
        membership "wm3" "w2" "u1"];
     projects := [project "p1" "w1" 150; project "p2" "w2" 40];
     tasks := [task "t1" "p1" (Some "s1"); task "t2" "p2" (Some "s1");
               task "t3" "p2" None];
     taskTags := [tag "g1" "t1" "ui"; tag "g2" "t1" "api"; tag "g3" "t2" "ui"];
     sprints := [sprint "s1" "p1" (-1)];
     milestones := [milestone "m1" "p1" 101; milestone "m2" "p1" 0;
                    milestone "m3" "p2" 0];
     milestoneDependencies :=
       [dependency "d1" "m1" "m2"; dependency "d2" "m2" "m1";
        dependency "d3" "m3" "m1"];
     activities := [activity "a1" (Some "t1"); activity "a2" (Some "t2");
                    activity "a3" None];
     notifications := [] |}.

End Sample.

(** * Requests and sample environments used in the statements *)

(** The request [fetchProjectInfo] sends for [projectId] with [token]. *)
Definition project_request (env : Env) (projectId : ProjectInfo.ProjectId)
    (token : option string) : Request :=
  {| method := GET;
     url := getApiEndpoint env
              ("api/projects/" +:+ ProjectInfo.show_id projectId);
     body := None;
     headers := authorization token |}.

(** The fetch fails with [err]: the token could not be had, or the request
    was rejected. *)
Definition fetch_fails (env : Env) (projectId : ProjectInfo.ProjectId)
    (err : Exn) : Prop :=
  getToken env = inl err
  ∨ ∃ token, getToken env = inr token
             ∧ axios env (project_request env projectId token) = inl err.

(** The request the sprint form sends to list a workspace's projects. *)
Definition workspace_request (env : Env) (workspace : string)
    (token : option string) : Request :=
  {| method := GET;
     url := api_getApiEndpoint env ("/api/projects/workspace/" +:+ workspace);
     body := None;
     headers := authorization token |}.

(** The request [handleSubmit] sends from form state [st] with [token]. *)
Definition sprint_request (env : Env) (st : SprintFormModal.State)
    (token : option string) : Request :=
  {| method := POST;
     url := api_getApiEndpoint env "/api/sprints/create";
     body := Some (SprintFormModal.sprint_body st);
     headers := authorization token |}.

(** An environment whose auth provider hands out [tok] and whose server
    settles every request with [answer]; endpoints live under [/]. *)
Definition env_with (answer : Exn + HttpResponse) : Env :=
  {| getToken := inr (Some "tok");
     axios := λ _, answer;
     getApiEndpoint := λ path, "/" +:+ path;
     api_getApiEndpoint := λ path, path |}.

Definition ok_response (d : json) : HttpResponse :=
  {| status := 200; statusText := "OK"; data := d |}.

(** A project as the server may send it: no [progress], an empty [status]. *)
Definition sample_project : gmap string json :=
  <["name" := JStr "PixBay"]>
    (<["status" := JStr ""]> (<["teamMembers" := JNum 4]> ∅)).

Definition not_found : HttpResponse :=
  {| status := 404; statusText := "Not Found"; data := JObj ∅ |}.

Definition server_error : HttpResponse :=
  {| status := 500; statusText := "Internal Server Error"; data := JObj ∅ |}.

(** The server cannot be reached: axios rejects without a response. *)
Definition offline : Env := env_with (inl (AxiosError None)).




(** A filled-in sprint form. *)
Definition filled_form : SprintFormModal.State :=
  {| SprintFormModal.name := "Sprint 1";
     SprintFormModal.goal := "ship";
     SprintFormModal.startDate := "";
     SprintFormModal.endDate := "2025-01-31";
     SprintFormModal.selectedProjectId := "p1";
     SprintFormModal.projects := JArr [];
     SprintFormModal.isLoading := false;
     SprintFormModal.error := JStr "";
     SprintFormModal.projectsError := "" |}.

Definition open_modal : SprintFormModal.Props :=
  {| SprintFormModal.isOpen := true;
     SprintFormModal.workspaceName := "acme";
     SprintFormModal.onSprintCreated := true |}.

(** * Properties of [ProjectInfo] *)

Section ProjectInfoFacts.
Import ProjectInfo.

(** Unfolds a handler down to its state and log. *)
Ltac run_handler :=
  cbv [final_state trace run fetchProjectInfo finally try_catch mbind mret
       eff_bind eff_ret bind ret lift get modify emit axios_get axios_post
       console_error setProject setLoading setError project_request
       fst snd] in *.

Lemma fetchProjectInfo_no_project env projectId st :
  not_id projectId = true →
  run (fetchProjectInfo env projectId) st
  = (inr tt,
     {| project := project st; loading := false;
        error := Some "Select a project or create a new one" |},
     []).
Proof.
  intros Hid. run_handler. rewrite Hid. reflexivity.
Qed.

Lemma fetchProjectInfo_ok env projectId st token response status_ progress_ :
  not_id projectId = false →
  getToken env = inr token →
  axios env (project_request env projectId token) = inr response →
  member (data response) "status" = inr status_ →
  member (data response) "progress" = inr progress_ →
  run (fetchProjectInfo env projectId) st
  = (inr tt,
     {| project :=
          Some (<["progress" := js_or progress_ (JNum 0)]>
                  (<["status" := js_or status_ (JStr "active")]>
                     (spread (data response))));
        loading := false;
        error := None |},
     [EvRequest (project_request env projectId token)]).
Proof.
  intros Hid Htok Hresp Hstatus Hprogress. run_handler.
  rewrite Hid, Htok. simpl. rewrite Hresp, Hstatus, Hprogress. reflexivity.
Qed.

Lemma fetchProjectInfo_null_body env projectId st token response :
  not_id projectId = false →
  getToken env = inr token →
  axios env (project_request env projectId token) = inr response →
  data response = JNull →
  run (fetchProjectInfo env projectId) st
  = (inr tt,
     {| project := None; loading := false;
        error := Some "Failed to load project information" |},
     [EvRequest (project_request env projectId token);
      EvConsoleError "Error fetching project:"]).
Proof.
  intros Hid Htok Hresp Hdata. run_handler.
  rewrite Hid, Htok. simpl. rewrite Hresp, Hdata. reflexivity.
Qed.

Lemma fetchProjectInfo_failed env projectId st err :
  not_id projectId = false →
  fetch_fails env projectId err →
  final_state (fetchProjectInfo env projectId) st
  = {| project := None; loading := false;
       error := Some (errorMessage err) |}.
Proof.
  intros Hid [Htok | (token & Htok & Hresp)]; run_handler;
    rewrite Hid, Htok; simpl; [| rewrite Hresp]; reflexivity.
Qed.

Lemma fetchProjectInfo_requests env projectId st :
  requests (trace (fetchProjectInfo env projectId) st)
  = if not_id projectId then []
    else match getToken env with
         | inr token => [project_request env projectId token]
         | inl _ => []
         end.
Proof.
  run_handler.
  destruct (not_id projectId); [reflexivity |].
  destruct (getToken env) as [e | token]; simpl; [reflexivity |].
  destruct (axios env _) as [e | response]; simpl; [reflexivity |].
  destruct (member (data response) "status"); simpl; [reflexivity |].
  destruct (member (data response) "progress"); reflexivity.
Qed.

Lemma errorMessage_shown msg :
  msg ≠ "" →
  render {| project := None; loading := false; error := Some msg |}
  = ViewError msg.
Proof.
  intros Hmsg. unfold render. simpl.
  destruct (String.eqb_spec msg ""); [done | reflexivity].
Qed.

(** ** C9 *)

(** C9: when [projectId] is null, undefined or the empty string,
    [fetchProjectInfo] issues no HTTP request (it does nothing to the outside
    world at all), sets the error to exactly "Select a project or create a
    new one" and sets loading to false; the stored project is untouched. *)
Theorem fetchProjectInfo_without_project env projectId st :
  projectId = IdNull ∨ projectId = IdUndefined ∨ projectId = IdString "" →
  requests (trace (fetchProjectInfo env projectId) st) = []
  ∧ trace (fetchProjectInfo env projectId) st = []
  ∧ error (final_state (fetchProjectInfo env projectId) st)
    = Some "Select a project or create a new one"
  ∧ loading (final_state (fetchProjectInfo env projectId) st) = false
  ∧ project (final_state (fetchProjectInfo env projectId) st) = project st.
Proof.
  intros Hid.
  assert (not_id projectId = true) as Hnot
    by (destruct Hid as [-> | [-> | ->]]; reflexivity).
  unfold trace, final_state.
  rewrite (fetchProjectInfo_no_project env projectId st Hnot). done.
Qed.

Lemma fetchProjectInfo_without_project_witness :
  requests (trace (fetchProjectInfo (env_with (inl OtherError)) IdNull) initial)
  = []
  ∧ trace (fetchProjectInfo (env_with (inl OtherError)) IdNull) initial = []
  ∧ error (final_state (fetchProjectInfo (env_with (inl OtherError)) IdNull)
             initial)
    = Some "Select a project or create a new one"
  ∧ loading (final_state (fetchProjectInfo (env_with (inl OtherError)) IdNull)
               initial) = false
  ∧ project (final_state (fetchProjectInfo (env_with (inl OtherError)) IdNull)
               initial) = project initial.
Proof.
  apply (fetchProjectInfo_without_project (env_with (inl OtherError)) IdNull
           initial).
  left. reflexivity.
Defined.

(** ** C1 *)

(** C1: after a successful response to the project request whose body is an
    object, the stored project -- which is what the component renders -- is
    the body with [status] replaced by "active" when it is missing or falsy,
    [progress] replaced by 0 when it is missing or falsy, and every other
    field exactly as received; the error is cleared and loading is over. *)
Theorem fetchProjectInfo_defaults env projectId st token response m :
  not_id projectId = false →
  getToken env = inr token →
  axios env (project_request env projectId token) = inr response →
  data response = JObj m →
  ∃ p,
    project (final_state (fetchProjectInfo env projectId) st) = Some p
    ∧ render (final_state (fetchProjectInfo env projectId) st) = ViewProject p
    ∧ error (final_state (fetchProjectInfo env projectId) st) = None
    ∧ loading (final_state (fetchProjectInfo env projectId) st) = false
    ∧ (truthy (m !! "status") = true → p !! "status" = m !! "status")
    ∧ (truthy (m !! "status") = false → p !! "status" = Some (JStr "active"))
    ∧ (truthy (m !! "progress") = true → p !! "progress" = m !! "progress")
    ∧ (truthy (m !! "progress") = false → p !! "progress" = Some (JNum 0))
    ∧ (∀ k, k ≠ "status" → k ≠ "progress" → p !! k = m !! k).
Proof.
  intros Hid Htok Hresp Hdata.
  unfold final_state.
  rewrite (fetchProjectInfo_ok env projectId st token response
             (m !! "status") (m !! "progress") Hid Htok Hresp)
    by (rewrite Hdata; reflexivity).
  rewrite Hdata. simpl. eexists. split; [reflexivity |].
  split; [reflexivity |]. split; [reflexivity |]. split; [reflexivity |].
  repeat split.
  - intros Ht. rewrite lookup_insert_ne by done. rewrite lookup_insert_eq.
    unfold js_or. destruct (m !! "status") as [v |]; [| done].
    by rewrite Ht.
  - intros Ht. rewrite lookup_insert_ne by done. rewrite lookup_insert_eq.
    unfold js_or. destruct (m !! "status") as [v |]; [| done].
    by rewrite Ht.
  - intros Ht. rewrite lookup_insert_eq.
    unfold js_or. destruct (m !! "progress") as [v |]; [| done].
    by rewrite Ht.
  - intros Ht. rewrite lookup_insert_eq.
    unfold js_or. destruct (m !! "progress") as [v |]; [| done].
    by rewrite Ht.
  - intros k Hs Hp. by rewrite !lookup_insert_ne.
Qed.

Lemma fetchProjectInfo_defaults_witness :
  ∃ p,
    project (final_state
               (fetchProjectInfo (env_with (inr (ok_response (JObj sample_project))))
                  (IdString "p1")) initial) = Some p
    ∧ p !! "status" = Some (JStr "active")
    ∧ p !! "progress" = Some (JNum 0)
    ∧ p !! "name" = Some (JStr "PixBay")
    ∧ p !! "teamMembers" = Some (JNum 4).
Proof.
  destruct (fetchProjectInfo_defaults
              (env_with (inr (ok_response (JObj sample_project))))
              (IdString "p1") initial (Some "tok")
              (ok_response (JObj sample_project)) sample_project
              eq_refl eq_refl eq_refl eq_refl)
    as (p & Hp & _ & _ & _ & _ & Hstatus & _ & Hprogress & Hrest).
  exists p. split; [exact Hp |].
  split; [apply Hstatus; reflexivity |].
  split; [apply Hprogress; reflexivity |].
  split; (rewrite Hrest; [reflexivity | done | done]).
Defined.

(** ** C2 *)

(** C2: when the project request is rejected with a response whose status
    is 404, the error is exactly "Project not found", the stored project is
    null, loading is over, and the component shows that text. *)
Theorem fetchProjectInfo_not_found env projectId st token response :
  not_id projectId = false →
  getToken env = inr token →
  axios env (project_request env projectId token)
  = inl (AxiosError (Some response)) →
  status response = 404%N →
  error (final_state (fetchProjectInfo env projectId) st)
  = Some "Project not found"
  ∧ project (final_state (fetchProjectInfo env projectId) st) = None
  ∧ loading (final_state (fetchProjectInfo env projectId) st) = false
  ∧ render (final_state (fetchProjectInfo env projectId) st)
    = ViewError "Project not found".
Proof.
  intros Hid Htok Hresp Hstatus.
  rewrite (fetchProjectInfo_failed env projectId st
             (AxiosError (Some response)) Hid)
    by (right; eauto).
  simpl. rewrite Hstatus. simpl. done.
Qed.

Lemma fetchProjectInfo_not_found_witness :
  error (final_state
           (fetchProjectInfo (env_with (inl (AxiosError (Some not_found))))
              (IdString "p1")) initial)
  = Some "Project not found"
  ∧ project (final_state
               (fetchProjectInfo (env_with (inl (AxiosError (Some not_found))))
                  (IdString "p1")) initial) = None
  ∧ loading (final_state
               (fetchProjectInfo (env_with (inl (AxiosError (Some not_found))))
                  (IdString "p1")) initial) = false
  ∧ render (final_state
              (fetchProjectInfo (env_with (inl (AxiosError (Some not_found))))
                 (IdString "p1")) initial)
    = ViewError "Project not found".
Proof.
  apply (fetchProjectInfo_not_found
           (env_with (inl (AxiosError (Some not_found))))
           (IdString "p1") initial (Some "tok") not_found);
    reflexivity.
Defined.

(** ** C3 *)

(** The formatted message of the [catch] block. *)
Lemma formatted_nonempty (code : N) (text : string) :
  "Error: " +:+ pretty code +:+ " - " +:+ text ≠ "".
Proof. done. Qed.

(** C3, as the code has it: a failed fetch clears the project and ends
    loading; when the error carries a response whose status is not 404 the
    message shown is "Error: <status> - <statusText>"; when the error carries
    no response (a network error, or a rejection that is not an axios error)
    the message shown is "Failed to load project information". *)
Theorem fetchProjectInfo_error_message env projectId st err :
  not_id projectId = false →
  fetch_fails env projectId err →
  project (final_state (fetchProjectInfo env projectId) st) = None
  ∧ loading (final_state (fetchProjectInfo env projectId) st) = false
  ∧ (∀ response,
       err = AxiosError (Some response) → status response ≠ 404%N →
       error (final_state (fetchProjectInfo env projectId) st)
       = Some ("Error: " +:+ pretty (status response) +:+ " - "
                 +:+ statusText response)
       ∧ render (final_state (fetchProjectInfo env projectId) st)
         = ViewError ("Error: " +:+ pretty (status response) +:+ " - "
                        +:+ statusText response))
  ∧ ((∀ response, err ≠ AxiosError (Some response)) →
       error (final_state (fetchProjectInfo env projectId) st)
       = Some "Failed to load project information"
       ∧ render (final_state (fetchProjectInfo env projectId) st)
         = ViewError "Failed to load project information").
Proof.
  intros Hid Hfail.
  rewrite (fetchProjectInfo_failed env projectId st err Hid Hfail).
  split; [reflexivity |]. split; [reflexivity |]. split.
  - intros response -> Hstatus. simpl.
    destruct (N.eqb_spec (status response) 404) as [| _]; [done |].
    split; [reflexivity |].
    apply errorMessage_shown, formatted_nonempty.
  - intros Hnone.
    assert (errorMessage err = "Failed to load project information") as ->.
    { destruct err as [[response |] | |]; try reflexivity.
      by destruct (Hnone response). }
    done.
Qed.

Lemma fetchProjectInfo_error_message_witness :
  render (final_state
            (fetchProjectInfo (env_with (inl (AxiosError (Some server_error))))
               (IdString "p1")) initial)
  = ViewError "Error: 500 - Internal Server Error"
  ∧ render (final_state (fetchProjectInfo offline (IdString "p1")) initial)
    = ViewError "Failed to load project information".
Proof.
  split.
  - refine (proj2 (proj1 (proj2 (proj2
      (fetchProjectInfo_error_message
         (env_with (inl (AxiosError (Some server_error))))
         (IdString "p1") initial (AxiosError (Some server_error))
         eq_refl _))) server_error eq_refl _)).
    + right. exists (Some "tok"). split; reflexivity.
    + discriminate.
  - refine (proj2 (proj2 (proj2 (proj2
      (fetchProjectInfo_error_message offline (IdString "p1") initial
         (AxiosError None) eq_refl _))) _)).
    + right. exists (Some "tok"). split; reflexivity.
    + discriminate.
Defined.

(** C3, as the specification words it, fails for a network error: the
    server is unreachable, the fetch fails without a response, and the text
    shown is the generic one, which is not of the form
    "Error: <status> - <statusText>". *)
Lemma network_error_is_not_formatted :
  fetch_fails offline (IdString "p1") (AxiosError None)
  ∧ render (final_state (fetchProjectInfo offline (IdString "p1")) initial)
    = ViewError "Failed to load project information"
  ∧ ¬ ∃ (code : N) (text : string),
        render (final_state (fetchProjectInfo offline (IdString "p1")) initial)
        = ViewError ("Error: " +:+ pretty code +:+ " - " +:+ text).
Proof.
  split; [right; exists (Some "tok"); split; reflexivity |].
  split; [reflexivity |].
  intros (code & text & H). discriminate H.
Qed.

(** ** Further properties of [fetchProjectInfo] and of the render *)

Lemma errorMessage_nonempty err : errorMessage err ≠ "".
Proof.
  destruct err as [[response |] | |]; simpl; try done.
  by destruct (status response =? 404)%N.
Qed.

(** X1: [fetchProjectInfo] never throws, whatever the auth provider and the
    server do, and always leaves loading false: once it has run the
    component no longer shows the loading line. *)
Theorem fetchProjectInfo_settles env projectId st :
  (run (fetchProjectInfo env projectId) st).1.1 = inr tt
  ∧ loading (final_state (fetchProjectInfo env projectId) st) = false
  ∧ render (final_state (fetchProjectInfo env projectId) st) ≠ ViewLoading.
Proof.
  assert ((run (fetchProjectInfo env projectId) st).1.1 = inr tt
          ∧ loading (final_state (fetchProjectInfo env projectId) st) = false)
    as [Hrun Hloading].
  { run_handler.
    destruct (not_id projectId); [done |].
    destruct (getToken env) as [e | token]; simpl; [done |].
    destruct (axios env _) as [e | response]; simpl; [done |].
    destruct (member (data response) "status"); simpl; [done |].
    destruct (member (data response) "progress"); done. }
  split; [exact Hrun |]. split; [exact Hloading |].
  unfold render. rewrite Hloading.
  by destruct (project _); [destruct (is_set _) |].
Qed.

(** X2: a call sends at most one request, and sends none exactly when
    [projectId] is falsy or the token could not be had. *)
Theorem fetchProjectInfo_at_most_one_request env projectId st :
  length (requests (trace (fetchProjectInfo env projectId) st)) ≤ 1
  ∧ (requests (trace (fetchProjectInfo env projectId) st) = []
     ↔ not_id projectId = true ∨ ∃ err, getToken env = inl err).
Proof.
  rewrite fetchProjectInfo_requests.
  destruct (not_id projectId); [split; [simpl; lia | naive_solver] |].
  destruct (getToken env) as [e | token]; simpl.
  - split; [lia | naive_solver].
  - split; [lia | naive_solver].
Qed.

(** X3: when the token cannot be had, nothing is sent: the failure is
    logged, the stored project is cleared and the message chosen for the
    rejection is stored. *)
Theorem fetchProjectInfo_token_failure env projectId st err :
  not_id projectId = false →
  getToken env = inl err →
  trace (fetchProjectInfo env projectId) st
  = [EvConsoleError "Error fetching project:"]
  ∧ final_state (fetchProjectInfo env projectId) st
    = {| project := None; loading := false;
         error := Some (errorMessage err) |}
  ∧ render (final_state (fetchProjectInfo env projectId) st)
    = ViewError (errorMessage err).
Proof.
  intros Hid Htok.
  assert (run (fetchProjectInfo env projectId) st
          = (inr tt,
             {| project := None; loading := false;
                error := Some (errorMessage err) |},
             [EvConsoleError "Error fetching project:"])) as Hrun.
  { run_handler. rewrite Hid, Htok. reflexivity. }
  unfold trace, final_state. rewrite Hrun. simpl.
  split; [done |]. split; [done |].
  apply errorMessage_shown, errorMessage_nonempty.
Qed.

Lemma fetchProjectInfo_token_failure_witness :
  trace (fetchProjectInfo
           {| getToken := inl OtherError; axios := λ _, inl OtherError;
              getApiEndpoint := λ path, path;
              api_getApiEndpoint := λ path, path |}
           (IdString "p1")) initial
  = [EvConsoleError "Error fetching project:"].
Proof.
  apply (fetchProjectInfo_token_failure
           {| getToken := inl OtherError; axios := λ _, inl OtherError;
              getApiEndpoint := λ path, path;
              api_getApiEndpoint := λ path, path |}
           (IdString "p1") initial OtherError);
    reflexivity.
Defined.

(** X4: a successful response whose body is [null] is not a project: reading
    its [status] throws inside the [try], so the request counts as failed
    and the generic message is shown. *)
Theorem fetchProjectInfo_null_body_shown env projectId st token response :
  not_id projectId = false →
  getToken env = inr token →
  axios env (project_request env projectId token) = inr response →
  data response = JNull →
  project (final_state (fetchProjectInfo env projectId) st) = None
  ∧ render (final_state (fetchProjectInfo env projectId) st)
    = ViewError "Failed to load project information".
Proof.
  intros Hid Htok Hresp Hdata. unfold final_state.
  by rewrite (fetchProjectInfo_null_body env projectId st token response
                Hid Htok Hresp Hdata).
Qed.

Lemma fetchProjectInfo_null_body_shown_witness :
  render (final_state
            (fetchProjectInfo (env_with (inr (ok_response JNull)))
               (IdString "p1")) initial)
  = ViewError "Failed to load project information".
Proof.
  apply (fetchProjectInfo_null_body_shown
           (env_with (inr (ok_response JNull))) (IdString "p1") initial
           (Some "tok") (ok_response JNull));
    reflexivity.
Defined.

(** X5: a successful response whose body is neither [null] nor an object is
    not refused: a project is stored with status "active" and progress 0,
    and for a number or a boolean these are its only fields. *)
Theorem fetchProjectInfo_other_body env projectId st token response :
  not_id projectId = false →
  getToken env = inr token →
  axios env (project_request env projectId token) = inr response →
  data response ≠ JNull →
  (∀ m, data response ≠ JObj m) →
  ∃ p,
    project (final_state (fetchProjectInfo env projectId) st) = Some p
    ∧ render (final_state (fetchProjectInfo env projectId) st) = ViewProject p
    ∧ p !! "status" = Some (JStr "active")
    ∧ p !! "progress" = Some (JNum 0)
    ∧ ((∃ n, data response = JNum n) ∨ (∃ b, data response = JBool b) →
       p = <["progress" := JNum 0]> (<["status" := JStr "active"]> ∅)).
Proof.
  intros Hid Htok Hresp Hnull Hobj. unfold final_state.
  rewrite (fetchProjectInfo_ok env projectId st token response None None
             Hid Htok Hresp).
  - simpl. eexists. split; [reflexivity |]. split; [reflexivity |].
    split; [by rewrite lookup_insert_ne, lookup_insert_eq |].
    split; [by rewrite lookup_insert_eq |].
    by intros [[n ->] | [b ->]].
  - destruct (data response); try done. by destruct (Hobj m).
  - destruct (data response); try done. by destruct (Hobj m).
Qed.

Lemma fetchProjectInfo_other_body_witness :
  ∃ p,
    project (final_state
               (fetchProjectInfo (env_with (inr (ok_response (JBool true))))
                  (IdString "p1")) initial) = Some p
    ∧ p = <["progress" := JNum 0]> (<["status" := JStr "active"]> ∅).
Proof.
  destruct (fetchProjectInfo_other_body
              (env_with (inr (ok_response (JBool true)))) (IdString "p1")
              initial (Some "tok") (ok_response (JBool true))
              eq_refl eq_refl eq_refl ltac:(discriminate)
              ltac:(discriminate))
    as (p & Hp & _ & _ & _ & Hfields).
  exists p. split; [exact Hp |].
  apply Hfields. right. exists true. reflexivity.
Defined.

(** X6: with a falsy [projectId] the component shows "Select a project or
    create a new one", also when a project loaded earlier is still stored. *)
Theorem fetchProjectInfo_hint_shown env projectId st :
  not_id projectId = true →
  render (final_state (fetchProjectInfo env projectId) st)
  = ViewError "Select a project or create a new one"
  ∧ project (final_state (fetchProjectInfo env projectId) st) = project st.
Proof.
  intros Hid. unfold final_state.
  rewrite (fetchProjectInfo_no_project env projectId st Hid).
  unfold render. simpl. by destruct (project st).
Qed.

Lemma fetchProjectInfo_hint_shown_witness :
  render (final_state (fetchProjectInfo offline (IdString ""))
            {| project := Some sample_project; loading := false;
               error := None |})
  = ViewError "Select a project or create a new one".
Proof.
  apply (fetchProjectInfo_hint_shown offline (IdString "")
           {| project := Some sample_project; loading := false;
              error := None |}).
  reflexivity.
Defined.

(** X7: the error line is never empty, and the card is shown exactly when
    loading is over, a project is stored and the error is null or empty. *)
Theorem render_cases st :
  (∀ text, render st = ViewError text → text ≠ "")
  ∧ (∀ p, render st = ViewProject p
          ↔ loading st = false ∧ project st = Some p
            ∧ (error st = None ∨ error st = Some "")).
Proof.
  unfold render, is_set, or_text.
  destruct (loading st), (project st) as [p0 |], (error st) as [e |];
    try destruct (String.eqb_spec e ""); simpl;
    (split; [intros text Htext | intros p; split;
                                 [intros Hview | intros (? & ? & ?)]]);
    simplify_eq; try done; try naive_solver.
Qed.

(** X8: after a call with a truthy [projectId], exactly one of the project
    and the error is set: either a project is stored and the error is null,
    or the project is null and a non-empty message is stored. *)
Theorem fetchProjectInfo_project_xor_error env projectId st :
  not_id projectId = false →
  (∃ p, project (final_state (fetchProjectInfo env projectId) st) = Some p
        ∧ error (final_state (fetchProjectInfo env projectId) st) = None)
  ∨ (∃ msg, project (final_state (fetchProjectInfo env projectId) st) = None
            ∧ error (final_state (fetchProjectInfo env projectId) st)
              = Some msg
            ∧ msg ≠ "").
Proof.
  intros Hid. run_handler. rewrite Hid.
  destruct (getToken env) as [e | token]; simpl.
  { right. eexists. split; [done |]. split; [done |].
    apply errorMessage_nonempty. }
  destruct (axios env _) as [e | response]; simpl.
  { right. eexists. split; [done |]. split; [done |].
    apply errorMessage_nonempty. }
  destruct (member (data response) "status") as [e | status_]; simpl.
  { right. eexists. split; [done |]. split; [done |].
    apply errorMessage_nonempty. }
  destruct (member (data response) "progress") as [e | progress_]; simpl.
  { right. eexists. split; [done |]. split; [done |].
    apply errorMessage_nonempty. }
  left. eauto.
Qed.

Lemma fetchProjectInfo_project_xor_error_witness :
  (∃ p, project (final_state (fetchProjectInfo offline (IdString "p1"))
                   initial) = Some p
        ∧ error (final_state (fetchProjectInfo offline (IdString "p1"))
                   initial) = None)
  ∨ (∃ msg, project (final_state (fetchProjectInfo offline (IdString "p1"))
                       initial) = None
            ∧ error (final_state (fetchProjectInfo offline (IdString "p1"))
                       initial) = Some msg
            ∧ msg ≠ "").
Proof.
  apply (fetchProjectInfo_project_xor_error offline (IdString "p1") initial).
  reflexivity.
Defined.

(** ** The project card *)

Lemma child_text_primitive v :
  primitive v = true → is_Some (child_text_opt v).
Proof. destruct v as [[] |]; simpl; by eauto. Qed.

Lemma guarded_primitive v : primitive v = true → is_Some (guarded v).
Proof.
  intros [t Ht]%child_text_primitive. unfold guarded. rewrite Ht.
  destruct (truthy v); simpl; eauto.
Qed.

Lemma guarded_block v slot :
  guarded v = Some slot →
  ((∃ text, slot = Block text) ↔ truthy v = true)
  ∧ (v = Some (JNum 0) → slot = Stray "0")
  ∧ (truthy v = false → v ≠ Some (JNum 0) → slot = Hidden).
Proof.
  unfold guarded. destruct (truthy v) eqn:Ht.
  - destruct (child_text_opt v) as [t |]; simpl; [| done].
    intros [= <-]. split; [naive_solver |].
    split; [by intros -> |]. done.
  - destruct v as [[| [] | n | s | l | m] |]; simpl in *; try done.
    + intros [= <-]. split; [naive_solver |]. done.
    + intros [= <-]. split; [naive_solver |]. done.
    + apply negb_false_iff, Z.eqb_eq in Ht as ->.
      intros [= <-]. split; [naive_solver |]. done.
    + apply negb_false_iff, String.eqb_eq in Ht as ->.
      intros [= <-]. split; [naive_solver |]. done.
    + intros [= <-]. split; [naive_solver |]. done.
Qed.

(** X9: in the card, the description and the deadline blocks are there
    exactly when the field is truthy; a field that is the number 0 leaves a
    stray "0" in the page instead, and every other falsy value leaves
    nothing. *)
Theorem card_blocks p card :
  render_card p = Some card →
  (((∃ text, description_slot card = Block text)
    ↔ truthy (p !! "description") = true)
   ∧ (p !! "description" = Some (JNum 0) → description_slot card = Stray "0")
   ∧ (truthy (p !! "description") = false →
      p !! "description" ≠ Some (JNum 0) → description_slot card = Hidden))
  ∧ (((∃ text, deadline_slot card = Block text)
      ↔ truthy (p !! "deadline") = true)
     ∧ (p !! "deadline" = Some (JNum 0) → deadline_slot card = Stray "0")
     ∧ (truthy (p !! "deadline") = false →
        p !! "deadline" ≠ Some (JNum 0) → deadline_slot card = Hidden)).
Proof.
  unfold render_card. intros Hcard.
  destruct (child_text_opt (p !! "name")); simpl in Hcard; [| done].
  destruct (guarded (p !! "description")) as [d |] eqn:Hd;
    simpl in Hcard; [| done].
  destruct (child_text_opt (p !! "progress")); simpl in Hcard; [| done].
  destruct (child_text_opt (p !! "status")); simpl in Hcard; [| done].
  destruct (child_text (js_or _ _)); simpl in Hcard; [| done].
  destruct (guarded (p !! "deadline")) as [e |] eqn:He;
    simpl in Hcard; [| done].
  injection Hcard as <-. simpl.
  split; by apply guarded_block.
Qed.

Lemma card_blocks_witness :
  ∃ card,
    render_card (<["name" := JStr "PixBay"]> (<["deadline" := JNum 0]> ∅))
    = Some card
    ∧ deadline_slot card = Stray "0"
    ∧ description_slot card = Hidden.
Proof.
  assert (render_card (<["name" := JStr "PixBay"]> (<["deadline" := JNum 0]> ∅))
          = Some {| heading := "PixBay"; description_slot := Hidden;
                    progress_ring := "%"; progress_label := "%";
                    status_label := ""; team_label := "0 members";
                    deadline_slot := Stray "0" |}) as Hcard
    by (vm_compute; reflexivity).
  eexists. split; [exact Hcard |].
  destruct (card_blocks _ _ Hcard)
    as [(_ & _ & Hdescription) (_ & Hdeadline & _)].
  split; [apply Hdeadline; reflexivity |].
  apply Hdescription; [reflexivity | discriminate].
Defined.

(** X10: the card of a project fetched from an object body shows "0%" when
    the body has no truthy progress, "active" when it has no truthy status
    and "0 members" when it has no truthy [teamMembers]. *)
Theorem card_defaults env projectId st token response m :
  not_id projectId = false →
  getToken env = inr token →
  axios env (project_request env projectId token) = inr response →
  data response = JObj m →
  ∃ p,
    render (final_state (fetchProjectInfo env projectId) st) = ViewProject p
    ∧ ∀ card,
        render_card p = Some card →
        (truthy (m !! "progress") = false →
         progress_ring card = "0%" ∧ progress_label card = "0%")
        ∧ (truthy (m !! "status") = false → status_label card = "active")
        ∧ (truthy (m !! "teamMembers") = false →
           team_label card = "0 members").
Proof.
  intros Hid Htok Hresp Hdata. unfold final_state.
  rewrite (fetchProjectInfo_ok env projectId st token response
             (m !! "status") (m !! "progress") Hid Htok Hresp)
    by (rewrite Hdata; reflexivity).
  rewrite Hdata. simpl. eexists. split; [reflexivity |].
  intros card. unfold render_card.
  rewrite !lookup_insert_eq.
  rewrite (lookup_insert_ne _ "progress" "status") by done.
  rewrite !lookup_insert_eq.
  rewrite !(lookup_insert_ne _ _ "name") by done.
  rewrite !(lookup_insert_ne _ _ "description") by done.
  rewrite !(lookup_insert_ne _ _ "teamMembers") by done.
  rewrite !(lookup_insert_ne _ _ "deadline") by done.
  destruct (child_text_opt (m !! "name")); simpl; [| done].
  destruct (guarded (m !! "description")); simpl; [| done].
  destruct (child_text (js_or (m !! "progress") _)) eqn:Hprogress;
    simpl; [| done].
  destruct (child_text (js_or (m !! "status") _)) eqn:Hstatus;
    simpl; [| done].
  destruct (child_text (js_or (m !! "teamMembers") _)) eqn:Hteam;
    simpl; [| done].
  destruct (guarded (m !! "deadline")); simpl; [| done].
  intros [= <-]. simpl.
  assert (∀ v d, truthy v = false → js_or v d = d) as Hor.
  { intros v d Hv. unfold js_or. destruct v; [by rewrite Hv | done]. }
  split; [| split]; intros Hfalsy.
  - rewrite (Hor _ _ Hfalsy) in Hprogress. by injection Hprogress as <-.
  - rewrite (Hor _ _ Hfalsy) in Hstatus. by injection Hstatus as <-.
  - rewrite (Hor _ _ Hfalsy) in Hteam. by injection Hteam as <-.
Qed.

Lemma card_defaults_witness :
  ∃ p card,
    render (final_state
              (fetchProjectInfo
                 (env_with (inr (ok_response (JObj sample_project))))
                 (IdString "p1")) initial) = ViewProject p
    ∧ render_card p = Some card
    ∧ progress_ring card = "0%"
    ∧ status_label card = "active"
    ∧ team_label card = "4 members".
Proof.
  destruct (card_defaults
              (env_with (inr (ok_response (JObj sample_project))))
              (IdString "p1") initial (Some "tok")
              (ok_response (JObj sample_project)) sample_project
              eq_refl eq_refl eq_refl eq_refl)
    as (p & Hp & Hcard).
  injection Hp as <-.
  eexists. eexists. split; [reflexivity |]. split; [reflexivity |].
  split; [| split]; [| | reflexivity].
  - eapply Hcard; reflexivity.
  - eapply Hcard; reflexivity.
Defined.

(** X11: the card renders whenever none of the six fields it reads is an
    array or an object, and the render throws whenever one of them is an
    object. *)
Theorem card_renders p :
  ((∀ k, k ∈ displayed → primitive (p !! k) = true) →
   is_Some (render_card p))
  ∧ ((∃ k m, k ∈ displayed ∧ p !! k = Some (JObj m)) →
     render_card p = None).
Proof.
  split.
  - intros Hprim. unfold render_card.
    assert (∀ k, k ∈ displayed → is_Some (child_text_opt (p !! k))) as Htext
      by (intros k Hk; apply child_text_primitive, Hprim, Hk).
    assert (∀ k, k ∈ displayed → is_Some (guarded (p !! k))) as Hguard
      by (intros k Hk; apply guarded_primitive, Hprim, Hk).
    destruct (Htext "name") as [? ->]; [set_solver |].
    destruct (Hguard "description") as [? ->]; [set_solver |].
    destruct (Htext "progress") as [? ->]; [set_solver |].
    destruct (Htext "status") as [? ->]; [set_solver |].
    destruct (Hguard "deadline") as [? ->]; [set_solver |].
    simpl.
    assert (is_Some (child_text (js_or (p !! "teamMembers") (JNum 0))))
      as [? ->]; [| simpl; eauto].
    pose proof (Hprim "teamMembers" ltac:(set_solver)) as Hteam.
    unfold js_or.
    destruct (p !! "teamMembers") as [[| [] | n | s | l | m] |];
      simpl in *; try done; try by eauto.
    + by destruct (negb _); eauto.
    + by destruct (negb _); eauto.
  - intros (k & m & Hk & Hobj). unfold render_card, displayed in *.
    repeat (apply elem_of_cons in Hk as [-> | Hk]);
      [.. | by apply elem_of_nil in Hk];
      rewrite ?Hobj; unfold guarded; simpl;
      repeat (match goal with
              | |- context [child_text_opt ?v] =>
                  destruct (child_text_opt v); simpl
              | |- context [child_text ?v] => destruct (child_text v); simpl
              | |- context [truthy ?v] => destruct (truthy v); simpl
              end); done.
Qed.

Lemma card_renders_witness :
  is_Some (render_card sample_project)
  ∧ render_card (<["name" := JObj ∅]> sample_project) = None.
Proof.
  split.
  - apply (proj1 (card_renders sample_project)).
    intros k Hk. unfold displayed in Hk.
    repeat (apply elem_of_cons in Hk as [-> | Hk]); try reflexivity.
    by apply elem_of_nil in Hk.
  - apply (proj2 (card_renders (<["name" := JObj ∅]> sample_project))).
    exists "name", ∅. split; [apply list_elem_of_here | reflexivity].
Defined.

(** The elements [{...s}] copies from a string body are its UTF-16 code
    units: one per character, two for a character outside the basic plane. *)
Example chars_are_code_units :
  chars "ab" = [JStr "a"; JStr "b"]
  ∧ length (chars "é") = 1
  ∧ length (chars "日本") = 2
  ∧ length (chars "😀") = 2.
Proof. vm_compute. done. Qed.

End ProjectInfoFacts.

(** * Properties of [SprintFormModal] *)

Section SprintFormModalFacts.
Import SprintFormModal.

Ltac run_form :=
  cbv [final_state trace run handleSubmit fetchProjects resetForm finally
       try_catch mbind mret eff_bind eff_ret bind ret lift get modify emit
       axios_get axios_post console_error setProjects setIsLoading setError
       with_error setProjectsError sprint_request workspace_request fst snd] in *.

Lemma handleSubmit_rejected env props st :
  selectedProjectId st = "" ∨ name st = "" →
  run (handleSubmit env props) st
  = (inr tt,
     with_error st
       (JStr (if String.eqb (selectedProjectId st) ""
              then "Please select a project"
              else "Sprint name is required")),
     [EvPreventDefault]).
Proof.
  intros Hempty. run_form. simpl.
  destruct (String.eqb_spec (selectedProjectId st) "") as [| Hproject];
    [reflexivity |].
  destruct (String.eqb_spec (name st) "") as [| Hname]; [reflexivity |].
  by destruct Hempty.
Qed.


Lemma handleSubmit_requests env props st :
  requests (trace (handleSubmit env props) st)
  = if String.eqb (selectedProjectId st) "" then []
    else if String.eqb (name st) "" then []
    else match getToken env with
         | inr token => [sprint_request env st token]
         | inl _ => []
         end.
Proof.
  run_form. simpl.
  destruct (String.eqb (selectedProjectId st) ""); [reflexivity |].
  destruct (String.eqb (name st) ""); [reflexivity |].
  destruct (getToken env) as [e | token]; simpl; [reflexivity |].
  destruct (axios env _) as [e | response]; simpl; [reflexivity |].
  destruct (onSprintCreated props); reflexivity.
Qed.

Lemma fetchProjects_requests env props st :
  requests (trace (fetchProjects env props) st)
  = if isOpen props && negb (String.eqb (workspaceName props) "")
    then match getToken env with
         | inr token => [workspace_request env (workspaceName props) token]
         | inl _ => []
         end
    else [].
Proof.
  run_form.
  destruct (isOpen props && negb (String.eqb (workspaceName props) ""));
    [| reflexivity].
  destruct (getToken env) as [e | token]; simpl; [reflexivity |].
  destruct (axios env _) as [e | response]; reflexivity.
Qed.

Lemma resetForm_requests props st :
  requests (trace (resetForm props) st) = [].
Proof. run_form. destruct (isOpen props); reflexivity. Qed.

(** ** C10 *)

(** C10: a submission with no project selected or with an empty name sends
    no request and changes nothing in the form state but the error message,
    which is "Please select a project" when no project is selected and
    otherwise "Sprint name is required"; a submission with both present sends
    (once the token is had) one request whose body carries null for an empty
    start date and for an empty end date, and the date itself otherwise. *)
Theorem handleSubmit_validation env props st :
  (selectedProjectId st = "" ∨ name st = "" →
     requests (trace (handleSubmit env props) st) = []
     ∧ final_state (handleSubmit env props) st
       = with_error st
           (JStr (if String.eqb (selectedProjectId st) ""
                  then "Please select a project"
                  else "Sprint name is required")))
  ∧ (selectedProjectId st ≠ "" → name st ≠ "" →
     ∀ token, getToken env = inr token →
     ∃ b,
       requests (trace (handleSubmit env props) st)
       = [{| method := POST;
             url := api_getApiEndpoint env "/api/sprints/create";
             body := Some (JObj b);
             headers := authorization token |}]
       ∧ b !! "startDate"
         = Some (if String.eqb (startDate st) "" then JNull
                 else JStr (startDate st))
       ∧ b !! "endDate"
         = Some (if String.eqb (endDate st) "" then JNull
                 else JStr (endDate st))
       ∧ b !! "name" = Some (JStr (name st))
       ∧ b !! "goal" = Some (JStr (goal st))
       ∧ b !! "projectId" = Some (JStr (selectedProjectId st))).
Proof.
  split.
  - intros Hempty. unfold trace, final_state.
    rewrite (handleSubmit_rejected env props st Hempty). done.
  - intros Hproject Hname token Htok.
    rewrite handleSubmit_requests, Htok.
    destruct (String.eqb_spec (selectedProjectId st) ""); [done |].
    destruct (String.eqb_spec (name st) ""); [done |].
    eexists. split; [reflexivity |].
    split; [| split; [| split; [| split]]].
    + rewrite !lookup_insert_ne by done. rewrite lookup_insert_eq.
      simpl. by destruct (String.eqb (startDate st) "").
    + rewrite !lookup_insert_ne by done. rewrite lookup_insert_eq.
      simpl. by destruct (String.eqb (endDate st) "").
    + by rewrite lookup_insert_eq.
    + rewrite !lookup_insert_ne by done. by rewrite lookup_insert_eq.
    + rewrite !lookup_insert_ne by done. by rewrite lookup_insert_eq.
Qed.

Lemma handleSubmit_validation_witness :
  (requests (trace (handleSubmit offline open_modal) initial) = []
   ∧ final_state (handleSubmit offline open_modal) initial
     = with_error initial (JStr "Please select a project"))
  ∧ ∃ b,
      requests (trace (handleSubmit offline open_modal) filled_form)
      = [{| method := POST; url := "/api/sprints/create";
            body := Some (JObj b);
            headers := [("Authorization", "Bearer tok")] |}]
      ∧ b !! "startDate" = Some JNull
      ∧ b !! "endDate" = Some (JStr "2025-01-31").
Proof.
  split.
  - apply (proj1 (handleSubmit_validation offline open_modal initial)).
    left. reflexivity.
  - destruct (proj2 (handleSubmit_validation offline open_modal filled_form)
                ltac:(discriminate) ltac:(discriminate) (Some "tok") eq_refl)
      as (b & Hreq & Hstart & Hend & _).
    exists b. split; [exact Hreq |]. split; [exact Hstart | exact Hend].
Defined.

(** ** C4 *)




(** ** Further properties of the sprint form *)

Lemma handleSubmit_run env props st :
  run (handleSubmit env props) st
  = if String.eqb (selectedProjectId st) "" then
      (inr tt, with_error st (JStr "Please select a project"),
       [EvPreventDefault])
    else if String.eqb (name st) "" then
      (inr tt, with_error st (JStr "Sprint name is required"),
       [EvPreventDefault])
    else
      match getToken env with
      | inl err =>
          (inr tt,
           settled st (js_or (opt_member (data <$> response_of err) "error")
                         (JStr "Failed to create sprint")),
           [EvPreventDefault; EvConsoleError "Error creating sprint:"])
      | inr token =>
          match axios env (sprint_request env st token) with
          | inl err =>
              (inr tt,
               settled st
                 (js_or (opt_member (data <$> response_of err) "error")
                    (JStr "Failed to create sprint")),
               [EvPreventDefault; EvRequest (sprint_request env st token);
                EvConsoleError "Error creating sprint:"])
          | inr _ =>
              (inr tt, settled st (JStr ""),
               [EvPreventDefault; EvRequest (sprint_request env st token);
                EvOnClose]
               ++ (if onSprintCreated props then [EvOnSprintCreated] else []))
          end
      end.
Proof.
  run_form. unfold settled. simpl.
  destruct (String.eqb (selectedProjectId st) ""); [reflexivity |].
  destruct (String.eqb (name st) ""); [reflexivity |].
  destruct (getToken env) as [e | token]; simpl; [reflexivity |].
  destruct (axios env _) as [e | response]; simpl; [reflexivity |].
  destruct (onSprintCreated props); reflexivity.
Qed.

(** X12: when the create request of a valid submission succeeds, the
    request is sent once, then [onClose] is called once, then
    [onSprintCreated] if it was passed; the error is emptied, loading ends
    and the fields keep what was typed. *)
Theorem handleSubmit_success env props st token response :
  selectedProjectId st ≠ "" →
  name st ≠ "" →
  getToken env = inr token →
  axios env (sprint_request env st token) = inr response →
  trace (handleSubmit env props) st
  = [EvPreventDefault; EvRequest (sprint_request env st token); EvOnClose]
    ++ (if onSprintCreated props then [EvOnSprintCreated] else [])
  ∧ final_state (handleSubmit env props) st = settled st (JStr "").
Proof.
  intros Hproject Hname Htok Hpost. unfold trace, final_state.
  rewrite handleSubmit_run, Htok, Hpost.
  destruct (String.eqb_spec (selectedProjectId st) ""); [done |].
  by destruct (String.eqb_spec (name st) "").
Qed.

Lemma handleSubmit_success_witness :
  trace (handleSubmit (env_with (inr (ok_response JNull))) open_modal)
    filled_form
  = [EvPreventDefault;
     EvRequest (sprint_request (env_with (inr (ok_response JNull)))
                  filled_form (Some "tok"));
     EvOnClose; EvOnSprintCreated].
Proof.
  apply (handleSubmit_success (env_with (inr (ok_response JNull))) open_modal
           filled_form (Some "tok") (ok_response JNull));
    [discriminate | discriminate | reflexivity | reflexivity].
Defined.

(** X13: [handleSubmit] never throws and touches nothing but the loading
    flag and the error; when the validation passes loading always ends, and
    when it fails the loading flag is left as it was. *)
Theorem handleSubmit_settles env props st :
  (run (handleSubmit env props) st).1.1 = inr tt
  ∧ (∃ v, final_state (handleSubmit env props) st
          = {| name := name st; goal := goal st; startDate := startDate st;
               endDate := endDate st;
               selectedProjectId := selectedProjectId st;
               projects := projects st;
               isLoading :=
                 if String.eqb (selectedProjectId st) "" then isLoading st
                 else if String.eqb (name st) "" then isLoading st
                 else false;
               error := v;
               projectsError := projectsError st |}).
Proof.
  unfold final_state. rewrite handleSubmit_run.
  destruct (String.eqb (selectedProjectId st) ""); [by eauto |].
  destruct (String.eqb (name st) ""); [by eauto |].
  destruct (getToken env) as [e | token]; [by eauto |].
  destruct (axios env _); by eauto.
Qed.

(** X14: [onClose] is called exactly when the fields are valid, the token
    was had and the create request succeeded; [onSprintCreated] is called
    exactly when, in addition, it was passed. *)
Theorem handleSubmit_closes_on_success env props st :
  (EvOnClose ∈ trace (handleSubmit env props) st
   ↔ selectedProjectId st ≠ "" ∧ name st ≠ ""
     ∧ ∃ token response,
         getToken env = inr token
         ∧ axios env (sprint_request env st token) = inr response)
  ∧ (EvOnSprintCreated ∈ trace (handleSubmit env props) st
     ↔ EvOnClose ∈ trace (handleSubmit env props) st
       ∧ onSprintCreated props = true).
Proof.
  unfold trace. rewrite handleSubmit_run.
  destruct (String.eqb_spec (selectedProjectId st) "") as [Hp | Hp]; simpl.
  { rewrite !list_elem_of_singleton. split; split; naive_solver. }
  destruct (String.eqb_spec (name st) "") as [Hn | Hn]; simpl.
  { rewrite !list_elem_of_singleton. split; split; naive_solver. }
  destruct (getToken env) as [e | token]; simpl.
  { rewrite !elem_of_cons, !elem_of_nil. split; split; naive_solver. }
  destruct (axios env _) as [e | response] eqn:Hpost; simpl.
  { rewrite !elem_of_cons, !elem_of_nil. split; split; [| | naive_solver ..].
    - naive_solver.
    - intros (_ & _ & token' & response & [= <-] & Hpost').
      rewrite Hpost in Hpost'. done. }
  destruct (onSprintCreated props); simpl;
    rewrite !elem_of_cons, !elem_of_nil; split; split; try naive_solver.
Qed.

(** X15: when the token cannot be had, a valid submission sends nothing:
    the error becomes the rejection's [response.data.error] if it has a
    truthy one and "Failed to create sprint" otherwise, and the modal stays
    open. *)
Theorem handleSubmit_token_failure env props st err :
  selectedProjectId st ≠ "" →
  name st ≠ "" →
  getToken env = inl err →
  trace (handleSubmit env props) st
  = [EvPreventDefault; EvConsoleError "Error creating sprint:"]
  ∧ final_state (handleSubmit env props) st
    = settled st (js_or (opt_member (data <$> response_of err) "error")
                    (JStr "Failed to create sprint"))
  ∧ (response_of err = None →
     error (final_state (handleSubmit env props) st)
     = JStr "Failed to create sprint").
Proof.
  intros Hproject Hname Htok. unfold trace, final_state.
  rewrite handleSubmit_run, Htok.
  destruct (String.eqb_spec (selectedProjectId st) ""); [done |].
  destruct (String.eqb_spec (name st) ""); [done |].
  split; [done |]. split; [done |]. by intros ->.
Qed.

Lemma handleSubmit_token_failure_witness :
  trace (handleSubmit
           {| getToken := inl OtherError; axios := λ _, inl OtherError;
              getApiEndpoint := λ path, path;
              api_getApiEndpoint := λ path, path |} open_modal) filled_form
  = [EvPreventDefault; EvConsoleError "Error creating sprint:"].
Proof.
  apply (handleSubmit_token_failure
           {| getToken := inl OtherError; axios := λ _, inl OtherError;
              getApiEndpoint := λ path, path;
              api_getApiEndpoint := λ path, path |} open_modal filled_form
           OtherError);
    [discriminate | discriminate | reflexivity].
Defined.

(** X16: the effect that lists the projects never throws and changes at
    most one cell: [projects] becomes the response body when the request
    succeeds, [projectsError] becomes "Failed to fetch projects" when the
    token or the request fails, and nothing happens while the modal is
    closed or the workspace name is empty. *)
Theorem fetchProjects_outcome env props st :
  (run (fetchProjects env props) st).1.1 = inr tt
  ∧ (isOpen props = false ∨ workspaceName props = "" →
     run (fetchProjects env props) st = (inr tt, st, []))
  ∧ (isOpen props = true → workspaceName props ≠ "" →
     (∀ token response,
        getToken env = inr token →
        axios env (workspace_request env (workspaceName props) token)
        = inr response →
        final_state (fetchProjects env props) st
        = {| name := name st; goal := goal st; startDate := startDate st;
             endDate := endDate st;
             selectedProjectId := selectedProjectId st;
             projects := data response; isLoading := isLoading st;
             error := error st; projectsError := projectsError st |})
     ∧ ((∃ err, getToken env = inl err)
        ∨ (∃ token err,
             getToken env = inr token
             ∧ axios env (workspace_request env (workspaceName props) token)
               = inl err) →
        final_state (fetchProjects env props) st
        = {| name := name st; goal := goal st; startDate := startDate st;
             endDate := endDate st;
             selectedProjectId := selectedProjectId st;
             projects := projects st; isLoading := isLoading st;
             error := error st;
             projectsError := "Failed to fetch projects" |})).
Proof.
  split; [| split].
  - run_form.
    destruct (isOpen props && _); [| done].
    destruct (getToken env) as [e | token]; simpl; [done |].
    by destruct (axios env _).
  - intros Hidle. run_form.
    destruct Hidle as [-> | ->]; [done |].
    by rewrite andb_false_r.
  - intros Hopen Hname. run_form. rewrite Hopen.
    destruct (String.eqb_spec (workspaceName props) ""); [done |]. simpl.
    split.
    + intros token response -> Hget. simpl. by rewrite Hget.
    + intros [[err ->] | (token & err & -> & Hget)]; simpl; [done |].
      by rewrite Hget.
Qed.

Lemma fetchProjects_outcome_witness :
  run (fetchProjects offline
         {| isOpen := false; workspaceName := "acme";
            onSprintCreated := false |}) initial
  = (inr tt, initial, [])
  ∧ projectsError (final_state (fetchProjects offline open_modal) initial)
    = "Failed to fetch projects".
Proof.
  split.
  - apply (proj1 (proj2 (fetchProjects_outcome offline
             {| isOpen := false; workspaceName := "acme";
                onSprintCreated := false |} initial))).
    left. reflexivity.
  - rewrite (proj2 (proj2 (proj2 (fetchProjects_outcome offline open_modal
                                    initial))
                      eq_refl ltac:(discriminate))).
    + reflexivity.
    + right. exists (Some "tok"), (AxiosError None). split; reflexivity.
Defined.

(** X17: a form that was just reset cannot be submitted: whatever was in it
    before, submitting right after the reset sends nothing and asks for a
    project. *)
Theorem submit_after_reset env props st :
  isOpen props = true →
  requests (trace (handleSubmit env props)
              (final_state (resetForm props) st)) = []
  ∧ final_state (handleSubmit env props) (final_state (resetForm props) st)
    = with_error (blank st) (JStr "Please select a project").
Proof.
  intros Hopen.
  assert (final_state (resetForm props) st = blank st) as ->
    by (run_form; by rewrite Hopen).
  unfold trace, final_state. rewrite handleSubmit_run. done.
Qed.

Lemma submit_after_reset_witness :
  requests (trace (handleSubmit offline open_modal)
              (final_state (resetForm open_modal) filled_form)) = [].
Proof.
  apply (submit_after_reset offline open_modal filled_form). reflexivity.
Defined.

(** X18: a picked day can be replaced but not removed: deselecting in the
    calendar leaves the stored date as it is, and picking a day stores its
    formatted text and touches nothing else; the next valid submission sends
    that text as [startDate] (and null only if the formatted text is
    empty). *)
Theorem start_date_sticks {Date : Type} (format_ymd : Date → string)
    env props st :
  final_state (handleStartDateChange format_ymd None) st = st
  ∧ (∀ d,
       final_state (handleStartDateChange format_ymd (Some d)) st
       = {| name := name st; goal := goal st; startDate := format_ymd d;
            endDate := endDate st;
            selectedProjectId := selectedProjectId st;
            projects := projects st; isLoading := isLoading st;
            error := error st; projectsError := projectsError st |})
  ∧ (∀ d token,
       selectedProjectId st ≠ "" → name st ≠ "" →
       getToken env = inr token →
       ∃ b,
         body <$> requests
                    (trace (handleSubmit env props)
                       (final_state
                          (handleStartDateChange format_ymd (Some d)) st))
         = [Some (JObj b)]
         ∧ b !! "startDate"
           = Some (if String.eqb (format_ymd d) "" then JNull
                   else JStr (format_ymd d))).
Proof.
  split; [reflexivity |]. split; [reflexivity |].
  intros d token Hproject Hname Htok.
  rewrite handleSubmit_requests, Htok. simpl.
  destruct (String.eqb_spec (selectedProjectId st) ""); [done |].
  destruct (String.eqb_spec (name st) ""); [done |].
  simpl. eexists. split; [reflexivity |].
  rewrite !lookup_insert_ne by done. rewrite lookup_insert_eq.
  simpl. by destruct (String.eqb (format_ymd d) "").
Qed.

(** X29: the same for the end date: deselecting leaves it, picking a day
    stores its formatted text and nothing else, and the next valid
    submission sends that text as [endDate]. *)
Theorem end_date_sticks {Date : Type} (format_ymd : Date → string)
    env props st :
  final_state (handleEndDateChange format_ymd None) st = st
  ∧ (∀ d,
       final_state (handleEndDateChange format_ymd (Some d)) st
       = {| name := name st; goal := goal st; startDate := startDate st;
            endDate := format_ymd d;
            selectedProjectId := selectedProjectId st;
            projects := projects st; isLoading := isLoading st;
            error := error st; projectsError := projectsError st |})
  ∧ (∀ d token,
       selectedProjectId st ≠ "" → name st ≠ "" →
       getToken env = inr token →
       ∃ b,
         body <$> requests
                    (trace (handleSubmit env props)
                       (final_state
                          (handleEndDateChange format_ymd (Some d)) st))
         = [Some (JObj b)]
         ∧ b !! "endDate"
           = Some (if String.eqb (format_ymd d) "" then JNull
                   else JStr (format_ymd d))).
Proof.
  split; [reflexivity |]. split; [reflexivity |].
  intros d token Hproject Hname Htok.
  rewrite handleSubmit_requests, Htok. simpl.
  destruct (String.eqb_spec (selectedProjectId st) ""); [done |].
  destruct (String.eqb_spec (name st) ""); [done |].
  simpl. eexists. split; [reflexivity |].
  rewrite !lookup_insert_ne by done. rewrite lookup_insert_eq.
  simpl. by destruct (String.eqb (format_ymd d) "").
Qed.

Lemma end_date_sticks_witness :
  ∃ b,
    body <$> requests
               (trace (handleSubmit offline open_modal)
                  (final_state
                     (handleEndDateChange (λ _ : unit, "2025-02-01")
                        (Some ())) filled_form))
    = [Some (JObj b)]
    ∧ b !! "endDate" = Some (JStr "2025-02-01").
Proof.
  exact (proj2 (proj2 (end_date_sticks (λ _ : unit, "2025-02-01") offline
                         open_modal filled_form))
           () (Some "tok") ltac:(discriminate) ltac:(discriminate) eq_refl).
Defined.

Lemma start_date_sticks_witness :
  ∃ b,
    body <$> requests
               (trace (handleSubmit offline open_modal)
                  (final_state
                     (handleStartDateChange (λ _ : unit, "2025-01-01")
                        (Some ())) filled_form))
    = [Some (JObj b)]
    ∧ b !! "startDate" = Some (JStr "2025-01-01").
Proof.
  exact (proj2 (proj2 (start_date_sticks (λ _ : unit, "2025-01-01") offline
                         open_modal filled_form))
           () (Some "tok") ltac:(discriminate) ltac:(discriminate) eq_refl).
Defined.

(** X19: the least a user has to do: from a form just reset, choosing a
    project and typing a name is enough, and the request then carries the
    name and the project, an empty goal, and null for both dates. *)
Theorem minimal_submission env props st project_ name_ token :
  isOpen props = true →
  project_ ≠ "" →
  name_ ≠ "" →
  getToken env = inr token →
  requests
    (trace (handleSubmit env props)
       (final_state (setName name_)
          (final_state (setSelectedProjectId project_)
             (final_state (resetForm props) st))))
  = [{| method := POST;
        url := api_getApiEndpoint env "/api/sprints/create";
        body := Some (JObj (<["name" := JStr name_]>
                           (<["goal" := JStr ""]>
                           (<["startDate" := JNull]>
                           (<["endDate" := JNull]>
                           (<["projectId" := JStr project_]> ∅))))));
        headers := authorization token |}].
Proof.
  intros Hopen Hproject Hname Htok.
  assert (final_state (resetForm props) st = blank st) as ->
    by (run_form; by rewrite Hopen).
  rewrite handleSubmit_requests, Htok. simpl.
  destruct (String.eqb_spec project_ ""); [done |].
  by destruct (String.eqb_spec name_ "").
Qed.

Lemma minimal_submission_witness :
  length (requests
            (trace (handleSubmit offline open_modal)
               (final_state (setName "Sprint 1")
                  (final_state (setSelectedProjectId "p1")
                     (final_state (resetForm open_modal) filled_form)))))
  = 1.
Proof.
  rewrite (minimal_submission offline open_modal filled_form "p1" "Sprint 1"
             (Some "tok") eq_refl ltac:(discriminate) ltac:(discriminate)
             eq_refl).
  reflexivity.
Defined.

(** X30: the list of projects is stored unchecked.  After a successful
    list response the select offers one choice per element, with the
    element's id as value and its name as text, when the body is an array of
    projects; when the body is not an array the stored value has no [map]
    and the modal can no longer render its select. *)
Theorem project_list_unchecked env props st token response :
  isOpen props = true →
  workspaceName props ≠ "" →
  getToken env = inr token →
  axios env (workspace_request env (workspaceName props) token)
  = inr response →
  projects (final_state (fetchProjects env props) st) = data response
  ∧ ((∀ l, data response ≠ JArr l) →
     project_options (projects (final_state (fetchProjects env props) st))
     = None)
  ∧ (∀ rows,
       data response = JArr (listed <$> rows) →
       project_options (projects (final_state (fetchProjects env props) st))
       = Some ((λ row, (Some (JStr row.1), row.2)) <$> rows)).
Proof.
  intros Hopen Hname Htok Hget.
  rewrite (proj1 (proj2 (proj2 (fetchProjects_outcome env props st))
                    Hopen Hname) token response Htok Hget).
  simpl. split; [done |]. split.
  - intros Harray. destruct (data response); try done.
    by destruct (Harray l).
  - intros rows ->. unfold project_options.
    induction rows as [| row rows IH]; [done |].
    rewrite !fmap_cons. cbn [mapM]. rewrite IH.
    unfold project_option, listed, member.
    rewrite lookup_insert_eq.
    rewrite lookup_insert_ne by done. rewrite lookup_insert_eq.
    reflexivity.
Qed.

Lemma project_list_unchecked_witness :
  project_options
    (projects (final_state
                 (fetchProjects
                    (env_with (inr (ok_response (JObj sample_project))))
                    open_modal) initial))
  = None.
Proof.
  apply (proj1 (proj2 (project_list_unchecked
                         (env_with (inr (ok_response (JObj sample_project))))
                         open_modal initial (Some "tok")
                         (ok_response (JObj sample_project))
                         eq_refl ltac:(discriminate) eq_refl eq_refl))).
  discriminate.
Defined.

End SprintFormModalFacts.

(** * Every request of the two components *)

(** C8: every HTTP request the two components issue -- from
    [fetchProjectInfo], from the effect that lists a workspace's projects,
    from [handleSubmit]; the effect that resets the form issues none --
    carries as its only header [Authorization: Bearer <token>] with the
    token the auth provider returned, and is a GET of the API utility's
    endpoint for [api/projects/:id], a GET of its endpoint for
    [/api/projects/workspace/:name], or a POST to its endpoint for
    [/api/sprints/create]. *)
Theorem requests_carry_bearer_token env (r : Request) :
  (∀ projectId st,
     r ∈ requests (trace (ProjectInfo.fetchProjectInfo env projectId) st) →
     ∃ token,
       getToken env = inr token
       ∧ headers r = [("Authorization", "Bearer " +:+ show_token token)]
       ∧ method r = GET
       ∧ url r = getApiEndpoint env
                   ("api/projects/" +:+ ProjectInfo.show_id projectId))
  ∧ (∀ props st,
       r ∈ requests (trace (SprintFormModal.fetchProjects env props) st) →
       ∃ token,
         getToken env = inr token
         ∧ headers r = [("Authorization", "Bearer " +:+ show_token token)]
         ∧ method r = GET
         ∧ url r = api_getApiEndpoint env
                     ("/api/projects/workspace/"
                        +:+ SprintFormModal.workspaceName props))
  ∧ (∀ props st,
       r ∈ requests (trace (SprintFormModal.handleSubmit env props) st) →
       ∃ token,
         getToken env = inr token
         ∧ headers r = [("Authorization", "Bearer " +:+ show_token token)]
         ∧ method r = POST
         ∧ url r = api_getApiEndpoint env "/api/sprints/create")
  ∧ (∀ props st,
       r ∉ requests (trace (SprintFormModal.resetForm props) st)).
Proof.
  split; [| split; [| split]].
  - intros projectId st. rewrite fetchProjectInfo_requests.
    destruct (ProjectInfo.not_id projectId); [by intros ?%elem_of_nil |].
    destruct (getToken env) as [e | token]; [by intros ?%elem_of_nil |].
    intros ->%list_elem_of_singleton. by exists token.
  - intros props st. rewrite fetchProjects_requests.
    destruct (_ && _); [| by intros ?%elem_of_nil].
    destruct (getToken env) as [e | token]; [by intros ?%elem_of_nil |].
    intros ->%list_elem_of_singleton. by exists token.
  - intros props st. rewrite handleSubmit_requests.
    destruct (String.eqb _ ""); [by intros ?%elem_of_nil |].
    destruct (String.eqb _ ""); [by intros ?%elem_of_nil |].
    destruct (getToken env) as [e | token]; [by intros ?%elem_of_nil |].
    intros ->%list_elem_of_singleton. by exists token.
  - intros props st. rewrite resetForm_requests. apply not_elem_of_nil.
Qed.

Lemma requests_carry_bearer_token_witness :
  (∃ token,
     getToken offline = inr token
     ∧ headers (project_request offline (ProjectInfo.IdString "p1")
                  (Some "tok"))
       = [("Authorization", "Bearer " +:+ show_token token)])
  ∧ (∃ token,
       getToken offline = inr token
       ∧ url (workspace_request offline "acme" (Some "tok"))
         = "/api/projects/workspace/acme")
  ∧ (∃ token,
       getToken offline = inr token
       ∧ headers (sprint_request offline filled_form (Some "tok"))
         = [("Authorization", "Bearer " +:+ show_token token)]
       ∧ method (sprint_request offline filled_form (Some "tok")) = POST).
Proof.
  split; [| split].
  - destruct (proj1 (requests_carry_bearer_token offline
                       (project_request offline (ProjectInfo.IdString "p1")
                          (Some "tok")))
                (ProjectInfo.IdString "p1") ProjectInfo.initial
                (list_elem_of_here _ _))
      as (token & Htok & Hhead & _).
    exists token. split; [exact Htok | exact Hhead].
  - destruct (proj1 (proj2 (requests_carry_bearer_token offline
                              (workspace_request offline "acme" (Some "tok"))))
                open_modal SprintFormModal.initial (list_elem_of_here _ _))
      as (token & Htok & _ & _ & Hurl).
    exists token. split; [exact Htok | exact Hurl].
  - destruct (proj1 (proj2 (proj2 (requests_carry_bearer_token offline
                              (sprint_request offline filled_form (Some "tok")))))
                open_modal filled_form (list_elem_of_here _ _))
      as (token & Htok & Hhead & Hmethod & _).
    exists token. split; [exact Htok |]. split; [exact Hhead | exact Hmethod].
Defined.

(** * Properties of the schema *)

Section SchemaFacts.
Import Schema.

Example sample_db_valid : valid Sample.db = true.
Proof. vm_compute. reflexivity. Qed.

(** ** What the checks mean *)

Section CheckFacts.
Context {K : Type} `{EqDecision K} {A B : Type}.

Lemma unique_on_spec (key : A → K) (rows : list A) :
  unique_on key rows = true ↔
  ∀ i j r1 r2,
    rows !! i = Some r1 → rows !! j = Some r2 → key r1 = key r2 → i = j.
Proof.
  unfold unique_on. rewrite bool_decide_eq_true, NoDup_alt. split.
  - intros Hdup i j r1 r2 Hi Hj Hkey.
    apply (Hdup i j (key r1)); rewrite list_lookup_fmap.
    + by rewrite Hi.
    + rewrite Hj. simpl. by rewrite Hkey.
  - intros Hrows i j k Hi Hj.
    rewrite list_lookup_fmap in Hi, Hj.
    destruct (rows !! i) as [r1 |] eqn:Hr1; [| done].
    destruct (rows !! j) as [r2 |] eqn:Hr2; [| done].
    simpl in Hi, Hj. apply (Hrows i j r1 r2 Hr1 Hr2). congruence.
Qed.

Lemma references_spec (fk : A → K) (pk : B → K) rows targets :
  references fk pk rows targets = true ↔
  ∀ r, r ∈ rows → ∃ t, t ∈ targets ∧ pk t = fk r.
Proof.
  unfold references.
  rewrite <-Is_true_true, forallb_True, Forall_forall.
  split; intros Hall r Hr; specialize (Hall r Hr).
  - apply bool_decide_unpack, list_elem_of_fmap in Hall as (t & Ht & Hin).
    eauto.
  - destruct Hall as (t & Hin & Ht).
    apply bool_decide_pack, list_elem_of_fmap. eauto.
Qed.

Lemma references_opt_spec (fk : A → option K) (pk : B → K) rows targets :
  references_opt fk pk rows targets = true ↔
  ∀ r k, r ∈ rows → fk r = Some k → ∃ t, t ∈ targets ∧ pk t = k.
Proof.
  unfold references_opt.
  rewrite <-Is_true_true, forallb_True, Forall_forall.
  split.
  - intros Hall r k Hr Hk. specialize (Hall r Hr). rewrite Hk in Hall.
    apply bool_decide_unpack, list_elem_of_fmap in Hall as (t & Ht & Hin).
    eauto.
  - intros Hall r Hr. destruct (fk r) as [k |] eqn:Hk; [| done].
    destruct (Hall r k Hr Hk) as (t & Hin & Ht).
    apply bool_decide_pack, list_elem_of_fmap. eauto.
Qed.

(** Deleting rows cannot break a uniqueness constraint, nor can a rewrite
    of the rows that keeps their keys. *)
Lemma unique_on_filter (key : A → K) (P : A → Prop)
    `{∀ x, Decision (P x)} rows :
  unique_on key rows = true → unique_on key (filter P rows) = true.
Proof.
  unfold unique_on. rewrite !bool_decide_eq_true. intros Hdup.
  apply (sublist_NoDup _ _ Hdup), fmap_sublist, sublist_filter.
Qed.

Lemma unique_on_fmap (key : A → K) (f : A → A) rows :
  (∀ r, key (f r) = key r) →
  unique_on key rows = true → unique_on key (f <$> rows) = true.
Proof.
  intros Hkey. unfold unique_on.
  rewrite <-list_fmap_compose, (list_fmap_ext (key ∘ f) key rows); [done |].
  intros i r _. apply Hkey.
Qed.

(** Deleting referring rows, or rewriting rows so that the keys involved
    stay the same, cannot break a foreign key. *)
Lemma references_filter (fk : A → K) (pk : B → K) (P : A → Prop)
    `{∀ x, Decision (P x)} rows targets :
  references fk pk rows targets = true →
  references fk pk (filter P rows) targets = true.
Proof.
  rewrite !references_spec. intros Hall r [_ Hr]%list_elem_of_filter. eauto.
Qed.

Lemma references_fmap (fk : A → K) (pk : B → K) (f : A → A) rows targets :
  (∀ r, fk (f r) = fk r) →
  references fk pk rows targets = true →
  references fk pk (f <$> rows) targets = true.
Proof.
  rewrite !references_spec.
  intros Hfk Hall r' (r & -> & Hr)%list_elem_of_fmap. rewrite Hfk. eauto.
Qed.

Lemma references_fmap_targets (fk : A → K) (pk : B → K) (f : B → B)
    rows targets :
  (∀ t, pk (f t) = pk t) →
  references fk pk rows targets = true →
  references fk pk rows (f <$> targets) = true.
Proof.
  rewrite !references_spec. intros Hpk Hall r Hr.
  destruct (Hall r Hr) as (t & Ht & Heq).
  exists (f t). split; [by apply list_elem_of_fmap_2 | by rewrite Hpk].
Qed.

Lemma references_opt_filter (fk : A → option K) (pk : B → K) (P : A → Prop)
    `{∀ x, Decision (P x)} rows targets :
  references_opt fk pk rows targets = true →
  references_opt fk pk (filter P rows) targets = true.
Proof.
  rewrite !references_opt_spec.
  intros Hall r k [_ Hr]%list_elem_of_filter. eauto.
Qed.

Lemma references_opt_fmap (fk : A → option K) (pk : B → K) (f : A → A)
    rows targets :
  (∀ r, fk (f r) = fk r) →
  references_opt fk pk rows targets = true →
  references_opt fk pk (f <$> rows) targets = true.
Proof.
  rewrite !references_opt_spec.
  intros Hfk Hall r' k (r & -> & Hr)%list_elem_of_fmap. rewrite Hfk. eauto.
Qed.

Lemma references_opt_fmap_targets (fk : A → option K) (pk : B → K)
    (f : B → B) rows targets :
  (∀ t, pk (f t) = pk t) →
  references_opt fk pk rows targets = true →
  references_opt fk pk rows (f <$> targets) = true.
Proof.
  rewrite !references_opt_spec. intros Hpk Hall r k Hr Hk.
  destruct (Hall r k Hr Hk) as (t & Ht & Heq).
  exists (f t). split; [by apply list_elem_of_fmap_2 | by rewrite Hpk].
Qed.

(** Deleting target rows keeps a foreign key when no remaining row refers
    to a deleted one. *)
Lemma references_remove (fk : A → K) (pk : B → K) (del : B → bool)
    rows targets :
  (∀ r, r ∈ rows → fk r ∉ pk <$> filter del targets) →
  references fk pk rows targets = true →
  references fk pk rows (filter (λ t, negb (del t)) targets) = true.
Proof.
  rewrite !references_spec. intros Hfree Hall r Hr.
  destruct (Hall r Hr) as (t & Ht & Heq).
  exists t. split; [| done].
  apply list_elem_of_filter. split; [| done].
  destruct (del t) eqn:Hdel; [| done].
  destruct (Hfree r Hr). rewrite <-Heq.
  apply list_elem_of_fmap_2, list_elem_of_filter. by rewrite Hdel.
Qed.

Lemma references_opt_remove (fk : A → option K) (pk : B → K)
    (del : B → bool) rows targets :
  (∀ r k, r ∈ rows → fk r = Some k → k ∉ pk <$> filter del targets) →
  references_opt fk pk rows targets = true →
  references_opt fk pk rows (filter (λ t, negb (del t)) targets) = true.
Proof.
  rewrite !references_opt_spec. intros Hfree Hall r k Hr Hk.
  destruct (Hall r k Hr Hk) as (t & Ht & Heq).
  exists t. split; [| done].
  apply list_elem_of_filter. split; [| done].
  destruct (del t) eqn:Hdel; [| done].
  destruct (Hfree r k Hr Hk). rewrite <-Heq.
  apply list_elem_of_fmap_2, list_elem_of_filter. by rewrite Hdel.
Qed.

Lemma forallb_filter (f : A → bool) (P : A → Prop)
    `{∀ x, Decision (P x)} rows :
  forallb f rows = true → forallb f (filter P rows) = true.
Proof.
  rewrite <-!Is_true_true, !forallb_True, !Forall_forall.
  intros Hall r [_ Hr]%list_elem_of_filter. eauto.
Qed.

Lemma forallb_fmap (f : A → bool) (g : A → A) rows :
  (∀ r, f (g r) = f r) →
  forallb f rows = true → forallb f (g <$> rows) = true.
Proof.
  intros Hfg. rewrite <-!Is_true_true, !forallb_True, !Forall_forall.
  intros Hall r' (r & -> & Hr)%list_elem_of_fmap. rewrite Hfg. eauto.
Qed.

End CheckFacts.

(** ** C5 *)

(** C5: in every state the schema admits, no two rows of [WorkspaceMember]
    agree on both [workspaceId] and [userId], no two rows of [TaskTag] agree
    on both [taskId] and [name], and no two rows of [MilestoneDependency]
    agree on both [milestoneId] and [dependsOnId]. *)
Theorem unique_pairs db :
  valid db = true →
  (∀ i j r1 r2,
     workspaceMembers db !! i = Some r1 →
     workspaceMembers db !! j = Some r2 →
     WorkspaceMember.workspaceId r1 = WorkspaceMember.workspaceId r2 →
     WorkspaceMember.userId r1 = WorkspaceMember.userId r2 →
     i = j)
  ∧ (∀ i j r1 r2,
       taskTags db !! i = Some r1 →
       taskTags db !! j = Some r2 →
       TaskTag.taskId r1 = TaskTag.taskId r2 →
       TaskTag.name r1 = TaskTag.name r2 →
       i = j)
  ∧ (∀ i j r1 r2,
       milestoneDependencies db !! i = Some r1 →
       milestoneDependencies db !! j = Some r2 →
       MilestoneDependency.milestoneId r1 = MilestoneDependency.milestoneId r2 →
       MilestoneDependency.dependsOnId r1 = MilestoneDependency.dependsOnId r2 →
       i = j).
Proof.
  unfold valid, uniques. rewrite !andb_true_iff.
  intros [[[_ [[[[[_ _] _] Hmember] Htag] Hdep]] _] _].
  rewrite unique_on_spec in Hmember.
  rewrite unique_on_spec in Htag.
  rewrite unique_on_spec in Hdep.
  split; [| split]; intros i j r1 r2 Hi Hj H1 H2.
  - apply (Hmember i j r1 r2 Hi Hj). unfold member_pair. congruence.
  - apply (Htag i j r1 r2 Hi Hj). unfold tag_pair. congruence.
  - apply (Hdep i j r1 r2 Hi Hj). unfold dependency_pair. congruence.
Qed.

Lemma unique_pairs_witness :
  valid Sample.db = true
  ∧ workspaceMembers Sample.db !! 1 = Some (Sample.membership "wm2" "w1" "u2")
  ∧ 1 = 1.
Proof.
  split; [reflexivity |]. split; [reflexivity |].
  exact (proj1 (unique_pairs Sample.db eq_refl) 1 1
           (Sample.membership "wm2" "w1" "u2")
           (Sample.membership "wm2" "w1" "u2")
           eq_refl eq_refl eq_refl eq_refl).
Defined.

(** ** C7 *)

(** C7: the schema admits a state whose dependency edges form a directed
    cycle, and it admits a state in which the progress of a project, of a
    sprint and of a milestone lie outside 0..100. *)
Theorem cycles_and_any_progress_admitted :
  (∃ db, valid db = true ∧ cyclic db)
  ∧ (∃ db,
       valid db = true
       ∧ (∃ r, r ∈ projects db ∧ ¬ percentage (Project.progress r))
       ∧ (∃ r, r ∈ sprints db ∧ ¬ percentage (Sprint.progress r))
       ∧ (∃ r, r ∈ milestones db ∧ ¬ percentage (Milestone.progress r))).
Proof.
  split.
  - exists Sample.db. split; [apply sample_db_valid |].
    exists "m1". apply tc_l with "m2"; [| apply tc_once].
    + unfold depends_on. simpl. apply list_elem_of_here.
    + unfold depends_on. simpl.
      apply list_elem_of_further, list_elem_of_here.
  - exists Sample.db. split; [apply sample_db_valid |].
    unfold percentage. split; [| split].
    + exists (Sample.project "p1" "w1" 150).
      split; [apply list_elem_of_here | simpl; lia].
    + exists (Sample.sprint "s1" "p1" (-1)).
      split; [apply list_elem_of_here | simpl; lia].
    + exists (Sample.milestone "m1" "p1" 101).
      split; [apply list_elem_of_here | simpl; lia].
Qed.

(** ** Deletes keep the state admitted *)

Lemma among_false ids k : among ids k = false ↔ k ∉ ids.
Proof. unfold among. apply bool_decide_eq_false. Qed.

Lemma among_true ids k : among ids k = true ↔ k ∈ ids.
Proof. unfold among. apply bool_decide_eq_true. Qed.

(** The shape of a cascade: the rows that referred to a deleted target are
    deleted with it. *)
Lemma references_cascade {A B} (fk : A → string) (pk : B → string)
    (keep : A → bool) (del : B → bool) rows targets :
  (∀ r, keep r = true → among (pk <$> filter del targets) (fk r) = false) →
  references fk pk rows targets = true →
  references fk pk (filter keep rows) (filter (λ t, negb (del t)) targets)
  = true.
Proof.
  intros Hkeep Href. apply references_remove.
  - intros r [Hr _]%list_elem_of_filter.
    apply among_false, Hkeep, Is_true_true, Hr.
  - by apply references_filter.
Qed.

Lemma references_opt_cascade {A B} (fk : A → option string) (pk : B → string)
    (keep : A → bool) (del : B → bool) rows targets :
  (∀ r, keep r = true →
        among_opt (pk <$> filter del targets) (fk r) = false) →
  references_opt fk pk rows targets = true →
  references_opt fk pk (filter keep rows)
    (filter (λ t, negb (del t)) targets)
  = true.
Proof.
  intros Hkeep Href. apply references_opt_remove.
  - intros r k [Hr _]%list_elem_of_filter Hk.
    apply Is_true_true, Hkeep in Hr. rewrite Hk in Hr.
    by apply among_false.
  - by apply references_opt_filter.
Qed.

(** The shape of a set-null: the rows that referred to a deleted target
    stay, with the reference cleared. *)
Lemma references_opt_set_null {A B} (fk : A → option string)
    (pk : B → string) (clear : A → A) (del : B → bool) rows targets :
  (∀ r, fk (clear r) = None) →
  references_opt fk pk rows targets = true →
  references_opt fk pk
    ((λ r, if among_opt (pk <$> filter del targets) (fk r) then clear r
           else r) <$> rows)
    (filter (λ t, negb (del t)) targets)
  = true.
Proof.
  intros Hclear Href. apply references_opt_remove.
  - intros r' k (r & -> & Hr)%list_elem_of_fmap.
    destruct (among_opt _ (fk r)) eqn:Hgone; [by rewrite Hclear |].
    intros Hk. rewrite Hk in Hgone. by apply among_false.
  - rewrite references_opt_spec in Href |- *.
    intros r' k (r & -> & Hr)%list_elem_of_fmap.
    destruct (among_opt _ (fk r)); [by rewrite Hclear | eauto].
Qed.

Ltac split_valid :=
  unfold valid, primary_keys, uniques, foreign_keys, int_ranges;
  rewrite !andb_true_iff;
  let H := fresh in
  intros H; destruct_and?;
  cbn [users rooms chatMessages workspaces workspaceMembers projects tasks
       taskTags sprints milestones milestoneDependencies activities
       notifications delete_tasks delete_sprints delete_milestones
       remove_projects remove_workspaces];
  repeat split; try assumption;
  auto using unique_on_filter, references_filter, references_opt_filter,
             forallb_filter.

Lemma delete_tasks_valid del db :
  valid db = true → valid (delete_tasks del db) = true.
Proof.
  split_valid.
  - apply references_cascade; [| assumption].
    intros r Hr. by apply negb_true_iff.
  - apply references_opt_cascade; [| assumption].
    intros r Hr. by apply negb_true_iff.
Qed.

Lemma delete_sprints_valid del db :
  valid db = true → valid (delete_sprints del db) = true.
Proof.
  split_valid.
  all: try (apply unique_on_fmap;
            [intros r; by destruct (among_opt _ _) | assumption]).
  all: try (apply references_fmap;
            [intros r; by destruct (among_opt _ _) | assumption]).
  all: try (apply references_fmap_targets;
            [intros r; by destruct (among_opt _ _) | assumption]).
  all: try (apply references_opt_fmap_targets;
            [intros r; by destruct (among_opt _ _) | assumption]).
  all: try (apply forallb_fmap;
            [intros r; by destruct (among_opt _ _) | assumption]).
  all: try (apply references_opt_fmap;
            [intros r; by destruct (among_opt _ _) | assumption]).
  by apply references_opt_set_null.
Qed.

Lemma delete_milestones_valid del db :
  valid db = true → valid (delete_milestones del db) = true.
Proof.
  split_valid.
  - apply references_cascade; [| assumption].
    intros r [Hr _]%andb_true_iff. by apply negb_true_iff.
  - apply references_cascade; [| assumption].
    intros r [_ Hr]%andb_true_iff. by apply negb_true_iff.
Qed.

(** Removing parents nobody refers to any more. *)
Lemma remove_projects_valid (del : Project.t → bool) db :
  valid db = true →
  (∀ r, r ∈ tasks db →
        Task.projectId r ∉ Project.id <$> filter del (projects db)) →
  (∀ r, r ∈ sprints db →
        Sprint.projectId r ∉ Project.id <$> filter del (projects db)) →
  (∀ r, r ∈ milestones db →
        Milestone.projectId r ∉ Project.id <$> filter del (projects db)) →
  valid (remove_projects del db) = true.
Proof.
  intros Hvalid Htasks Hsprints Hmilestones. revert Hvalid.
  split_valid; by apply references_remove.
Qed.

Lemma remove_workspaces_valid (del : Workspace.t → bool) db :
  valid db = true →
  (∀ r, r ∈ projects db →
        Project.workspaceId r
        ∉ Workspace.id <$> filter del (workspaces db)) →
  valid (remove_workspaces del db) = true.
Proof.
  intros Hvalid Hprojects. revert Hvalid.
  split_valid.
  - apply references_cascade; [| assumption].
    intros r Hr. by apply negb_true_iff.
  - by apply references_remove.
Qed.

(** The cascade of a project delete may as well run before the projects
    themselves go: the tables involved do not overlap. *)
Lemma delete_projects_children_first (del : Project.t → bool) db :
  delete_projects del db
  = remove_projects del
      (delete_milestones
         (λ r, among (Project.id <$> filter del (projects db))
                 (Milestone.projectId r))
         (delete_sprints
            (λ r, among (Project.id <$> filter del (projects db))
                    (Sprint.projectId r))
            (delete_tasks
               (λ r, among (Project.id <$> filter del (projects db))
                       (Task.projectId r))
               db))).
Proof. reflexivity. Qed.

Lemma delete_workspaces_children_first (del : Workspace.t → bool) db :
  delete_workspaces del db
  = remove_workspaces del
      (delete_projects
         (λ r, among (Workspace.id <$> filter del (workspaces db))
                 (Project.workspaceId r))
         db).
Proof. reflexivity. Qed.

(** What is left after a project delete. *)
Lemma delete_projects_projects (del : Project.t → bool) db r :
  r ∈ projects (delete_projects del db) ↔ r ∈ projects db ∧ del r = false.
Proof.
  simpl. rewrite list_elem_of_filter, negb_True, Is_true_false. tauto.
Qed.

Lemma delete_projects_tasks (del : Project.t → bool) db r :
  r ∈ tasks (delete_projects del db) →
  (Task.projectId r ∉ Project.id <$> filter del (projects db))
  ∧ ∃ r0, r0 ∈ tasks db ∧ Task.id r0 = Task.id r
          ∧ Task.projectId r0 = Task.projectId r.
Proof.
  simpl. intros (r0 & -> & [Hkeep Hr0]%list_elem_of_filter)%list_elem_of_fmap.
  apply negb_True, Is_true_false, among_false in Hkeep.
  destruct (among_opt _ _); simpl; eauto.
Qed.

Lemma delete_projects_sprints (del : Project.t → bool) db r :
  r ∈ sprints (delete_projects del db) ↔
  r ∈ sprints db
  ∧ Sprint.projectId r ∉ Project.id <$> filter del (projects db).
Proof.
  simpl. rewrite list_elem_of_filter, negb_True, Is_true_false, among_false.
  tauto.
Qed.

Lemma delete_projects_milestones (del : Project.t → bool) db r :
  r ∈ milestones (delete_projects del db) ↔
  r ∈ milestones db
  ∧ Milestone.projectId r ∉ Project.id <$> filter del (projects db).
Proof.
  simpl. rewrite list_elem_of_filter, negb_True, Is_true_false, among_false.
  tauto.
Qed.

Lemma delete_projects_valid (del : Project.t → bool) db :
  valid db = true → valid (delete_projects del db) = true.
Proof.
  intros Hvalid. rewrite delete_projects_children_first.
  apply remove_projects_valid.
  - by apply delete_milestones_valid, delete_sprints_valid,
      delete_tasks_valid.
  - intros r Hr. by apply (delete_projects_tasks del db r).
  - intros r Hr. by apply (delete_projects_sprints del db r).
  - intros r Hr. by apply (delete_projects_milestones del db r).
Qed.

Lemma delete_workspaces_projects (del : Workspace.t → bool) db r :
  r ∈ projects (delete_workspaces del db) ↔
  r ∈ projects db
  ∧ Project.workspaceId r ∉ Workspace.id <$> filter del (workspaces db).
Proof.
  unfold delete_workspaces. rewrite delete_projects_projects.
  simpl. by rewrite among_false.
Qed.

Lemma delete_workspaces_valid (del : Workspace.t → bool) db :
  valid db = true → valid (delete_workspaces del db) = true.
Proof.
  intros Hvalid. rewrite delete_workspaces_children_first.
  apply remove_workspaces_valid.
  - by apply delete_projects_valid.
  - intros r Hr. by apply (delete_workspaces_projects del db r).
Qed.

Lemma valid_no_orphans db : valid db = true → no_orphans db.
Proof.
  unfold valid, foreign_keys. rewrite !andb_true_iff.
  intros H. destruct_and?. unfold no_orphans.
  repeat split; by apply references_spec.
Qed.

(** The rows selected by [id = k] are those whose id is [k]. *)
Lemma selected_ids {A} (key : A → string) (k : string) (rows : list A) x :
  x ∈ key <$> filter (λ r, String.eqb (key r) k) rows ↔
  x = k ∧ k ∈ key <$> rows.
Proof.
  rewrite !list_elem_of_fmap. split.
  - intros (r & -> & [Hk Hr]%list_elem_of_filter).
    apply Is_true_true, String.eqb_eq in Hk. split; [done |].
    exists r. by rewrite Hk.
  - intros [-> (r & -> & Hr)]. exists r. split; [done |].
    apply list_elem_of_filter. split; [| done].
    apply Is_true_true, String.eqb_refl.
Qed.

(** ** C6 *)

(** C6: deleting an existing workspace succeeds, leaves an admitted state,
    removes the workspace and every project that belonged to it, and with
    each such project every task, sprint and milestone that belonged to it;
    deleting an existing project succeeds, leaves an admitted state, and
    removes the project with every task, sprint and milestone that belonged
    to it; in both cases no project, task, sprint or milestone is left
    without its parent row. *)
Theorem cascading_deletes db :
  valid db = true →
  (∀ w, w ∈ Workspace.id <$> workspaces db →
     ∃ db',
       deleteWorkspace w db = Some db'
       ∧ valid db' = true
       ∧ (w ∉ Workspace.id <$> workspaces db')
       ∧ (∀ p, p ∈ projects db' → Project.workspaceId p ≠ w)
       ∧ (∀ p, p ∈ projects db → Project.workspaceId p = w →
            (Project.id p ∉ Project.id <$> projects db')
            ∧ (∀ r, r ∈ tasks db' → Task.projectId r ≠ Project.id p)
            ∧ (∀ r, r ∈ sprints db' → Sprint.projectId r ≠ Project.id p)
            ∧ (∀ r, r ∈ milestones db' →
                    Milestone.projectId r ≠ Project.id p))
       ∧ no_orphans db')
  ∧ (∀ p, p ∈ Project.id <$> projects db →
       ∃ db',
         deleteProject p db = Some db'
         ∧ valid db' = true
         ∧ (p ∉ Project.id <$> projects db')
         ∧ (∀ r, r ∈ tasks db' → Task.projectId r ≠ p)
         ∧ (∀ r, r ∈ sprints db' → Sprint.projectId r ≠ p)
         ∧ (∀ r, r ∈ milestones db' → Milestone.projectId r ≠ p)
         ∧ no_orphans db').
Proof.
  intros Hvalid. split.
  - intros w Hw. unfold deleteWorkspace.
    rewrite (proj2 (among_true _ _) Hw). eexists. split; [reflexivity |].
    pose proof (delete_workspaces_valid
                  (λ r, String.eqb (Workspace.id r) w) db Hvalid) as Hvalid'.
    set (db' := delete_workspaces _ db) in *.
    assert (∀ p, p ∈ projects db' → Project.workspaceId p ≠ w) as Hprojects.
    { intros p [_ Hp]%delete_workspaces_projects Hpw.
      apply Hp, selected_ids. done. }
    split; [exact Hvalid' |]. split; [| split; [exact Hprojects |]; split].
    + simpl. intros (r & -> & [Hr _]%list_elem_of_filter)%list_elem_of_fmap.
      apply negb_True in Hr. apply Hr, Is_true_true, String.eqb_refl.
    + intros p Hp Hpw.
      assert (Project.id p
              ∈ Project.id <$>
                  filter (λ r, among (Workspace.id <$>
                                        filter (λ r, String.eqb (Workspace.id r) w)
                                          (workspaces db))
                                 (Project.workspaceId r))
                    (projects db)) as Hgone.
      { apply list_elem_of_fmap_2, list_elem_of_filter. split; [| done].
        apply Is_true_true, among_true, selected_ids. by rewrite Hpw. }
      split; [| split; [| split]].
      * intros (p' & Hid & Hp')%list_elem_of_fmap.
        pose proof (proj1 (valid_no_orphans db' Hvalid')) as Hparent.
        apply delete_workspaces_projects in Hp' as [Hp' Hfree].
        assert (p' = p) as ->.
        { apply list_elem_of_lookup in Hp as [i Hi].
          apply list_elem_of_lookup in Hp' as [j Hj].
          assert (j = i) as ->; [| congruence].
          revert Hvalid. unfold valid, primary_keys. rewrite !andb_true_iff.
          intros H. destruct_and?.
          match goal with
          | Hu : unique_on Project.id _ = true |- _ =>
              apply (proj1 (unique_on_spec _ _) Hu j i p' p Hj Hi)
          end.
          by symmetry. }
        apply Hfree, selected_ids. done.
      * intros r [Hr _]%delete_projects_tasks Heq. apply Hr.
        by rewrite Heq.
      * intros r [_ Hr]%delete_projects_sprints Heq. apply Hr.
        by rewrite Heq.
      * intros r [_ Hr]%delete_projects_milestones Heq. apply Hr.
        by rewrite Heq.
    + by apply valid_no_orphans.
  - intros p Hp. unfold deleteProject.
    rewrite (proj2 (among_true _ _) Hp). eexists. split; [reflexivity |].
    pose proof (delete_projects_valid
                  (λ r, String.eqb (Project.id r) p) db Hvalid) as Hvalid'.
    split; [exact Hvalid' |]. split; [| split; [| split; [| split]]].
    + intros (r & -> & [_ Hr]%delete_projects_projects)%list_elem_of_fmap.
      by rewrite String.eqb_refl in Hr.
    + intros r [Hr _]%delete_projects_tasks Heq. apply Hr, selected_ids.
      done.
    + intros r [_ Hr]%delete_projects_sprints Heq. apply Hr, selected_ids.
      done.
    + intros r [_ Hr]%delete_projects_milestones Heq. apply Hr, selected_ids.
      done.
    + by apply valid_no_orphans.
Qed.

Lemma cascading_deletes_witness :
  (∃ db',
     deleteWorkspace "w1" Sample.db = Some db'
     ∧ valid db' = true
     ∧ (∀ r, r ∈ tasks db' → Task.projectId r ≠ "p1")
     ∧ no_orphans db')
  ∧ (∃ db',
       deleteProject "p2" Sample.db = Some db'
       ∧ valid db' = true
       ∧ (∀ r, r ∈ milestones db' → Milestone.projectId r ≠ "p2")).
Proof.
  split.
  - destruct (proj1 (cascading_deletes Sample.db eq_refl) "w1"
                (list_elem_of_here _ _))
      as (db' & Hdelete & Hvalid & _ & _ & Hchildren & Horphans).
    exists db'. split; [exact Hdelete |]. split; [exact Hvalid |].
    split; [| exact Horphans].
    exact (proj1 (proj2 (Hchildren (Sample.project "p1" "w1" 150)
                           (list_elem_of_here _ _) eq_refl))).
  - destruct (proj2 (cascading_deletes Sample.db eq_refl) "p2"
                (list_elem_of_further _ _ _ (list_elem_of_here _ _)))
      as (db' & Hdelete & Hvalid & _ & _ & _ & Hmilestones & _).
    exists db'. split; [exact Hdelete |]. split; [exact Hvalid |].
    exact Hmilestones.
Defined.

(** What the sample looks like once workspace [w1] is gone: the task of the
    other workspace lost its sprint, the dependency on a deleted milestone
    went with it. *)
Example deleteWorkspace_sample :
  (λ db', (Task.id <$> tasks db', Task.sprintId <$> tasks db',
           Sprint.id <$> sprints db', Milestone.id <$> milestones db',
           MilestoneDependency.id <$> milestoneDependencies db',
           TaskTag.id <$> taskTags db', Activity.id <$> activities db',
           WorkspaceMember.id <$> workspaceMembers db'))
    <$> deleteWorkspace "w1" Sample.db
  = Some (["t2"; "t3"], [None; None], [], ["m3"], [], ["g3"], ["a2"; "a3"],
          ["wm3"]).
Proof. vm_compute. reflexivity. Qed.

(** ** Further properties of the deletes *)

Lemma among_selected {A} (key : A → string) (k : string) (rows : list A) x :
  k ∈ key <$> rows →
  among (key <$> filter (λ r, String.eqb (key r) k) rows) x
  = String.eqb x k.
Proof.
  intros Hk. destruct (String.eqb_spec x k) as [-> | Hne].
  - by apply among_true, selected_ids.
  - apply among_false. by intros [? _]%selected_ids.
Qed.

Lemma among_opt_selected {A} (key : A → string) (k : string)
    (rows : list A) x :
  k ∈ key <$> rows →
  among_opt (key <$> filter (λ r, String.eqb (key r) k) rows) x
  = bool_decide (x = Some k).
Proof.
  intros Hk. destruct x as [x |]; simpl; [| done].
  rewrite (among_selected key k rows x Hk).
  destruct (String.eqb_spec x k) as [-> | Hne].
  - by rewrite bool_decide_eq_true_2.
  - rewrite bool_decide_eq_false_2; [done | congruence].
Qed.

Lemma not_selected {A} (key : A → string) (k : string) (rows : list A) :
  among (key <$> filter (λ r, negb (String.eqb (key r) k)) rows) k = false.
Proof.
  apply among_false.
  intros (r & -> & [Hr _]%list_elem_of_filter)%list_elem_of_fmap.
  apply negb_True in Hr. apply Hr, Is_true_true, String.eqb_refl.
Qed.

(** X20: a row can be deleted once: after a successful delete of a
    workspace, project, task, sprint or milestone, deleting the same id
    again finds nothing. *)
Theorem delete_twice db :
  (∀ k db', deleteWorkspace k db = Some db' → deleteWorkspace k db' = None)
  ∧ (∀ k db', deleteProject k db = Some db' → deleteProject k db' = None)
  ∧ (∀ k db', deleteTask k db = Some db' → deleteTask k db' = None)
  ∧ (∀ k db', deleteSprint k db = Some db' → deleteSprint k db' = None)
  ∧ (∀ k db', deleteMilestone k db = Some db' →
              deleteMilestone k db' = None).
Proof.
  unfold deleteWorkspace, deleteProject, deleteTask, deleteSprint,
    deleteMilestone.
  repeat split; intros k db' Hdelete;
    destruct (among _ k); try done;
    injection Hdelete as <-; simpl; by rewrite not_selected.
Qed.

Lemma delete_twice_witness :
  ∃ db',
    deleteProject "p1" Sample.db = Some db' ∧ deleteProject "p1" db' = None.
Proof.
  eexists. split; [reflexivity |].
  exact (proj1 (proj2 (delete_twice Sample.db)) "p1" _ eq_refl).
Defined.

(** X21: what a project delete leaves alone: users, rooms, messages,
    workspaces, memberships and notifications are untouched, the other
    projects stay as they are, and a task of another project stays too --
    unchanged when its sprint (if any) belongs to another project, and with
    its sprint cleared when that sprint belonged to the deleted project. *)
Theorem deleteProject_frame db k db' :
  deleteProject k db = Some db' →
  users db' = users db ∧ rooms db' = rooms db
  ∧ chatMessages db' = chatMessages db ∧ workspaces db' = workspaces db
  ∧ workspaceMembers db' = workspaceMembers db
  ∧ notifications db' = notifications db
  ∧ (∀ r, r ∈ projects db' ↔ r ∈ projects db ∧ Project.id r ≠ k)
  ∧ (∀ t, t ∈ tasks db → Task.projectId t ≠ k →
       ((∀ s r, Task.sprintId t = Some s → r ∈ sprints db →
                Sprint.id r = s → Sprint.projectId r ≠ k) →
        t ∈ tasks db')
       ∧ (∀ s r, Task.sprintId t = Some s → r ∈ sprints db →
                 Sprint.id r = s → Sprint.projectId r = k →
                 Task.clear_sprint t ∈ tasks db')).
Proof.
  unfold deleteProject. destruct (among _ k) eqn:Hk; [| done].
  apply among_true in Hk. intros [= <-].
  repeat (split; [reflexivity |]). split.
  - intros r. rewrite delete_projects_projects.
    destruct (String.eqb_spec (Project.id r) k); naive_solver.
  - intros t Ht Hother. simpl.
    assert (t ∈ filter
                  (λ r, negb (among (Project.id <$>
                                       filter (λ r0, String.eqb (Project.id r0) k)
                                         (projects db))
                                (Task.projectId r)))
                  (tasks db)) as Hkept.
    { apply list_elem_of_filter. split; [| done].
      rewrite (among_selected Project.id k _ _ Hk).
      by destruct (String.eqb_spec (Task.projectId t) k). }
    split.
    + intros Hsprint.
      apply list_elem_of_fmap. exists t. split; [| done].
      destruct (among_opt _ (Task.sprintId t)) eqn:Hgone; [| done].
      destruct (Task.sprintId t) as [s |] eqn:Hs; [| done]. simpl in Hgone.
      apply among_true in Hgone
        as (r & -> & [Hr Hin]%list_elem_of_filter)%list_elem_of_fmap.
      apply Is_true_true in Hr.
      rewrite (among_selected Project.id k _ _ Hk) in Hr.
      apply String.eqb_eq in Hr. by destruct (Hsprint _ r eq_refl Hin eq_refl).
    + intros s r Hs Hr Hid Hp.
      apply list_elem_of_fmap. exists t. split; [| done].
      rewrite Hs. simpl.
      rewrite (proj2 (among_true _ s)); [done |].
      apply list_elem_of_fmap. exists r. split; [done |].
      apply list_elem_of_filter. split; [| done].
      rewrite (among_selected Project.id k _ _ Hk), Hp.
      apply Is_true_true, String.eqb_refl.
Qed.

Lemma deleteProject_frame_witness :
  ∃ db',
    deleteProject "p1" Sample.db = Some db'
    ∧ Task.clear_sprint (Sample.task "t2" "p2" (Some "s1")) ∈ tasks db'
    ∧ Sample.task "t3" "p2" None ∈ tasks db'.
Proof.
  eexists. split; [reflexivity |].
  destruct (deleteProject_frame Sample.db "p1" _ eq_refl)
    as (_ & _ & _ & _ & _ & _ & _ & Htasks).
  split.
  - apply (proj2 (Htasks (Sample.task "t2" "p2" (Some "s1"))
                    (list_elem_of_further _ _ _ (list_elem_of_here _ _))
                    ltac:(discriminate))
             "s1" (Sample.sprint "s1" "p1" (-1)) eq_refl
             (list_elem_of_here _ _) eq_refl eq_refl).
  - apply (proj1 (Htasks (Sample.task "t3" "p2" None)
                    (list_elem_of_further _ _ _
                       (list_elem_of_further _ _ _ (list_elem_of_here _ _)))
                    ltac:(discriminate))).
    discriminate.
Defined.

(** X22: what a workspace delete leaves alone: users, rooms, messages and
    notifications are untouched, and the other workspaces, their projects
    and their memberships stay as they are. *)
Theorem deleteWorkspace_frame db k db' :
  deleteWorkspace k db = Some db' →
  users db' = users db ∧ rooms db' = rooms db
  ∧ chatMessages db' = chatMessages db
  ∧ notifications db' = notifications db
  ∧ (∀ r, r ∈ workspaces db' ↔ r ∈ workspaces db ∧ Workspace.id r ≠ k)
  ∧ (∀ r, r ∈ projects db'
          ↔ r ∈ projects db ∧ Project.workspaceId r ≠ k)
  ∧ (∀ r, r ∈ workspaceMembers db'
          ↔ r ∈ workspaceMembers db ∧ WorkspaceMember.workspaceId r ≠ k).
Proof.
  unfold deleteWorkspace. destruct (among _ k) eqn:Hk; [| done].
  apply among_true in Hk. intros [= <-].
  repeat (split; [reflexivity |]). split; [| split].
  - intros r. simpl. rewrite list_elem_of_filter.
    destruct (String.eqb_spec (Workspace.id r) k); naive_solver.
  - intros r. rewrite delete_workspaces_projects.
    rewrite <-among_false, (among_selected Workspace.id k _ _ Hk).
    destruct (String.eqb_spec (Project.workspaceId r) k); naive_solver.
  - intros r. simpl. rewrite list_elem_of_filter.
    rewrite (among_selected Workspace.id k _ _ Hk).
    destruct (String.eqb_spec (WorkspaceMember.workspaceId r) k);
      naive_solver.
Qed.

Lemma deleteWorkspace_frame_witness :
  ∃ db',
    deleteWorkspace "w1" Sample.db = Some db'
    ∧ Sample.project "p2" "w2" 40 ∈ projects db'.
Proof.
  eexists. split; [reflexivity |].
  destruct (deleteWorkspace_frame Sample.db "w1" _ eq_refl)
    as (_ & _ & _ & _ & _ & Hprojects & _).
  apply Hprojects. split; [| discriminate].
  apply list_elem_of_further, list_elem_of_here.
Defined.

(** X23: deleting a sprint deletes no task: the state stays admitted, the
    tasks are the same rows in the same order except that those that were
    in the sprint now have none, the sprint is the only row that goes, and
    each of the eleven other tables is exactly as it was. *)
Theorem deleteSprint_keeps_tasks db k db' :
  valid db = true →
  deleteSprint k db = Some db' →
  valid db' = true
  ∧ tasks db'
    = (λ t, if bool_decide (Task.sprintId t = Some k)
            then Task.clear_sprint t else t) <$> tasks db
  ∧ Task.id <$> tasks db' = Task.id <$> tasks db
  ∧ (∀ t, t ∈ tasks db' → Task.sprintId t ≠ Some k)
  ∧ (∀ r, r ∈ sprints db' ↔ r ∈ sprints db ∧ Sprint.id r ≠ k)
  ∧ users db' = users db ∧ rooms db' = rooms db
  ∧ chatMessages db' = chatMessages db ∧ workspaces db' = workspaces db
  ∧ workspaceMembers db' = workspaceMembers db
  ∧ projects db' = projects db ∧ taskTags db' = taskTags db
  ∧ milestones db' = milestones db
  ∧ milestoneDependencies db' = milestoneDependencies db
  ∧ activities db' = activities db
  ∧ notifications db' = notifications db.
Proof.
  intros Hvalid. unfold deleteSprint.
  destruct (among _ k) eqn:Hk; [| done].
  apply among_true in Hk. intros [= <-].
  split; [by apply delete_sprints_valid |].
  assert (tasks (delete_sprints (λ r, String.eqb (Sprint.id r) k) db)
          = (λ t, if bool_decide (Task.sprintId t = Some k)
                  then Task.clear_sprint t else t) <$> tasks db) as Htasks.
  { simpl. apply list_fmap_ext. intros i t _.
    by rewrite (among_opt_selected Sprint.id k _ _ Hk). }
  split; [exact Htasks |]. rewrite Htasks.
  split; [| split; [| split]].
  - rewrite <-list_fmap_compose. apply list_fmap_ext.
    intros i t _. simpl. by destruct (bool_decide _).
  - intros t' (t & -> & Ht)%list_elem_of_fmap.
    destruct (bool_decide_reflect (Task.sprintId t = Some k)); [done |].
    done.
  - intros r. simpl. rewrite list_elem_of_filter.
    destruct (String.eqb_spec (Sprint.id r) k); naive_solver.
  - done.
Qed.

Lemma deleteSprint_keeps_tasks_witness :
  ∃ db',
    deleteSprint "s1" Sample.db = Some db'
    ∧ valid db' = true
    ∧ Task.id <$> tasks db' = ["t1"; "t2"; "t3"].
Proof.
  eexists. split; [reflexivity |].
  destruct (deleteSprint_keeps_tasks Sample.db "s1" _ eq_refl eq_refl)
    as (Hvalid & _ & Hids & _).
  split; [exact Hvalid | exact Hids].
Defined.



Lemma depends_on_spec db a b :
  depends_on db a b ↔
  ∃ r, r ∈ milestoneDependencies db
       ∧ MilestoneDependency.milestoneId r = a
       ∧ MilestoneDependency.dependsOnId r = b.
Proof.
  unfold depends_on, dependency_pair. rewrite list_elem_of_fmap.
  split; intros (r & Hr & Hin); exists r; naive_solver.
Qed.

Lemma tc_first_last {A} (R : relation A) x y :
  tc R x y → (∃ z, R x z) ∧ (∃ z, R z y).
Proof. induction 1; naive_solver. Qed.

(** X25: deleting a milestone removes exactly the dependency edges that
    touch it: the state stays admitted, every edge between two other
    milestones stays, no edge and hence no dependency path or cycle passes
    through the deleted milestone any more, and no dependency path is
    created. *)
Theorem deleteMilestone_edges db k db' :
  valid db = true →
  deleteMilestone k db = Some db' →
  valid db' = true
  ∧ (∀ a b, depends_on db' a b ↔ depends_on db a b ∧ a ≠ k ∧ b ≠ k)
  ∧ (∀ a b, tc (depends_on db') a b → tc (depends_on db) a b)
  ∧ (∀ a, ¬ tc (depends_on db') a k ∧ ¬ tc (depends_on db') k a)
  ∧ (∀ r, r ∈ milestones db' ↔ r ∈ milestones db ∧ Milestone.id r ≠ k).
Proof.
  intros Hvalid. unfold deleteMilestone.
  destruct (among _ k) eqn:Hk; [| done].
  apply among_true in Hk. intros [= <-].
  split; [by apply delete_milestones_valid |].
  assert (∀ a b,
            depends_on (delete_milestones
                          (λ r, String.eqb (Milestone.id r) k) db) a b
            ↔ depends_on db a b ∧ a ≠ k ∧ b ≠ k) as Hedges.
  { intros a b. rewrite !depends_on_spec. simpl.
    setoid_rewrite list_elem_of_filter.
    setoid_rewrite (among_selected Milestone.id k _ _ Hk).
    split.
    - intros (r & [Hkeep Hr] & <- & <-).
      apply andb_True in Hkeep as [Ha Hb].
      destruct (String.eqb_spec (MilestoneDependency.milestoneId r) k);
        [done |].
      destruct (String.eqb_spec (MilestoneDependency.dependsOnId r) k);
        [done |].
      eauto 10.
    - intros [(r & Hr & <- & <-) [Ha Hb]]. exists r.
      split; [| done]. split; [| done].
      destruct (String.eqb_spec (MilestoneDependency.milestoneId r) k);
        [done |].
      by destruct (String.eqb_spec (MilestoneDependency.dependsOnId r) k). }
  split; [exact Hedges |]. split; [| split].
  - intros a b Hpath.
    induction Hpath as [a b Hab | a b c Hab _ IH].
    + apply tc_once. by apply Hedges.
    + apply tc_l with b; [by apply Hedges | done].
  - intros a. split.
    + intros [_ [z Hz]]%tc_first_last. apply Hedges in Hz. naive_solver.
    + intros [[z Hz] _]%tc_first_last. apply Hedges in Hz. naive_solver.
  - intros r. simpl. rewrite list_elem_of_filter.
    destruct (String.eqb_spec (Milestone.id r) k); naive_solver.
Qed.

Lemma deleteMilestone_edges_witness :
  ∃ db',
    deleteMilestone "m2" Sample.db = Some db'
    ∧ valid db' = true
    ∧ ¬ tc (depends_on db') "m2" "m2".
Proof.
  eexists. split; [reflexivity |].
  destruct (deleteMilestone_edges Sample.db "m2" _ eq_refl eq_refl)
    as (Hvalid & _ & _ & Hpaths & _).
  split; [exact Hvalid |]. exact (proj1 (Hpaths "m2")).
Defined.

(** ** Deleting a user *)

Lemma unique_on_opt_filter {A} (key : A → option string) (P : A → Prop)
    `{∀ x, Decision (P x)} rows :
  unique_on_opt key rows = true → unique_on_opt key (filter P rows) = true.
Proof.
  unfold unique_on_opt. rewrite !bool_decide_eq_true. intros Hdup.
  apply (sublist_NoDup _ _ Hdup). clear Hdup.
  induction rows as [| r rows IH]; [done |].
  rewrite filter_cons. destruct (decide (P r)); simpl.
  - destruct (key r); [by apply sublist_skip | done].
  - destruct (key r); [by apply sublist_cons | done].
Qed.

Lemma existsb_among_false {A} (fk : A → string) ids rows :
  existsb (λ r, among ids (fk r)) rows = false ↔
  ∀ r, r ∈ rows → fk r ∉ ids.
Proof.
  rewrite <-not_true_iff_false, existsb_exists. split.
  - intros Hnone r Hr Hin. apply Hnone. exists r.
    split; [by apply list_elem_of_In | by apply among_true].
  - intros Hall (r & Hr%list_elem_of_In & Hin%among_true). by apply (Hall r).
Qed.

Lemma existsb_among_true {A} (fk : A → string) ids rows :
  existsb (λ r, among ids (fk r)) rows = true ↔
  ∃ r, r ∈ rows ∧ fk r ∈ ids.
Proof.
  rewrite existsb_exists. split.
  - intros (r & Hr%list_elem_of_In & Hin%among_true). eauto.
  - intros (r & Hr & Hin). exists r.
    split; [by apply list_elem_of_In | by apply among_true].
Qed.

Ltac split_valid_for_users :=
  unfold valid, primary_keys, uniques, foreign_keys, int_ranges;
  rewrite !andb_true_iff;
  let H := fresh in
  intros H; destruct_and?;
  cbn [users rooms chatMessages workspaces workspaceMembers projects tasks
       taskTags sprints milestones milestoneDependencies activities
       notifications delete_users];
  repeat split; try assumption;
  auto using unique_on_filter, unique_on_opt_filter, references_filter,
             references_opt_filter, forallb_filter, references_remove.

Lemma delete_users_valid (del : User.t → bool) db :
  user_referenced (User.id <$> filter del (users db)) db = false →
  valid db = true →
  valid (delete_users del db) = true.
Proof.
  unfold user_referenced. rewrite !orb_false_iff, !existsb_among_false.
  intros [[[[[Hrooms Hchat] Htasks] Hsprints] Hmilestones] Hactivities].
  split_valid_for_users.
  all: try (apply unique_on_fmap;
            [intros r; by destruct (among_opt _ _) | assumption]).
  all: try (apply references_fmap;
            [intros r; by destruct (among_opt _ _) | assumption]).
  all: try (apply references_fmap_targets;
            [intros r; by destruct (among_opt _ _) | assumption]).
  all: try (apply references_opt_fmap_targets;
            [intros r; by destruct (among_opt _ _) | assumption]).
  all: try (apply forallb_fmap;
            [intros r; by destruct (among_opt _ _) | assumption]).
  all: try (apply references_opt_fmap;
            [intros r; by destruct (among_opt _ _) | assumption]).
  - apply references_cascade; [| assumption].
    intros r Hr. by apply negb_true_iff.
  - by apply references_opt_set_null.
  - apply references_fmap; [intros r; by destruct (among_opt _ _) |].
    by apply references_remove.
  - apply references_cascade; [| assumption].
    intros r Hr. by apply negb_true_iff.
Qed.

(** X26: a user delete is refused as long as the user owns a room, a sprint
    or a milestone, wrote a chat message, created a task or has an activity
    on record, and only then; an unknown id is reported as such. *)
Theorem deleteUser_refused db k :
  (deleteUser k db = inl NotFound ↔ k ∉ User.id <$> users db)
  ∧ (deleteUser k db = inl StillReferenced
     ↔ k ∈ User.id <$> users db
       ∧ ((∃ r, r ∈ rooms db ∧ Room.ownerId r = k)
          ∨ (∃ r, r ∈ chatMessages db ∧ ChatMessage.userId r = k)
          ∨ (∃ r, r ∈ tasks db ∧ Task.creatorId r = k)
          ∨ (∃ r, r ∈ sprints db ∧ Sprint.ownerId r = k)
          ∨ (∃ r, r ∈ milestones db ∧ Milestone.ownerId r = k)
          ∨ (∃ r, r ∈ activities db ∧ Activity.userId r = k))).
Proof.
  unfold deleteUser. destruct (among _ k) eqn:Hk.
  - apply among_true in Hk.
    assert (∀ x, x ∈ User.id <$>
                       filter (λ r, String.eqb (User.id r) k) (users db)
                 ↔ x = k) as Hgone
      by (intros x; rewrite selected_ids; naive_solver).
    split; [split; [by destruct (user_referenced _ _) | done] |].
    destruct (user_referenced _ _) eqn:Href.
    + split; [intros _ | done]. split; [done |].
      unfold user_referenced in Href.
      rewrite !orb_true_iff, !existsb_among_true in Href.
      setoid_rewrite Hgone in Href. naive_solver.
    + split; [done |]. intros [_ Hrows]. exfalso.
      apply not_true_iff_false in Href. apply Href.
      unfold user_referenced.
      rewrite !orb_true_iff, !existsb_among_true.
      setoid_rewrite Hgone. naive_solver.
  - apply among_false in Hk. split; [done |]. split; [done |]. naive_solver.
Qed.

(** X27: a user delete that goes through leaves an admitted state: the
    user's memberships and notifications go with the user, every task stays
    (the same rows in the same order) and only loses the user as assignee,
    and the other tables are untouched. *)
Theorem deleteUser_cascade db k db' :
  valid db = true →
  deleteUser k db = inr db' →
  valid db' = true
  ∧ (∀ r, r ∈ users db' ↔ r ∈ users db ∧ User.id r ≠ k)
  ∧ (∀ r, r ∈ workspaceMembers db'
          ↔ r ∈ workspaceMembers db ∧ WorkspaceMember.userId r ≠ k)
  ∧ (∀ r, r ∈ notifications db'
          ↔ r ∈ notifications db ∧ Notification.userId r ≠ k)
  ∧ tasks db'
    = (λ t, if bool_decide (Task.assigneeId t = Some k)
            then Task.clear_assignee t else t) <$> tasks db
  ∧ rooms db' = rooms db ∧ chatMessages db' = chatMessages db
  ∧ workspaces db' = workspaces db ∧ projects db' = projects db
  ∧ taskTags db' = taskTags db ∧ sprints db' = sprints db
  ∧ milestones db' = milestones db
  ∧ milestoneDependencies db' = milestoneDependencies db
  ∧ activities db' = activities db.
Proof.
  intros Hvalid. unfold deleteUser.
  destruct (among _ k) eqn:Hk; [| done]. apply among_true in Hk.
  destruct (user_referenced _ _) eqn:Href; [done |].
  intros [= <-].
  split; [by apply delete_users_valid |].
  split; [| split; [| split; [| split]]]; [| | | | done].
  - intros r. simpl. rewrite list_elem_of_filter.
    destruct (String.eqb_spec (User.id r) k); naive_solver.
  - intros r. simpl. rewrite list_elem_of_filter.
    rewrite (among_selected User.id k _ _ Hk).
    destruct (String.eqb_spec (WorkspaceMember.userId r) k); naive_solver.
  - intros r. simpl. rewrite list_elem_of_filter.
    rewrite (among_selected User.id k _ _ Hk).
    destruct (String.eqb_spec (Notification.userId r) k); naive_solver.
  - simpl. apply list_fmap_ext. intros i t _.
    by rewrite (among_opt_selected User.id k _ _ Hk).
Qed.

Lemma deleteUser_cascade_witness :
  ∃ db',
    deleteUser "u2" Sample.db = inr db'
    ∧ valid db' = true
    ∧ Sample.membership "wm1" "w1" "u1" ∈ workspaceMembers db'.
Proof.
  eexists. split; [reflexivity |].
  destruct (deleteUser_cascade Sample.db "u2" _ eq_refl eq_refl)
    as (Hvalid & _ & Hmembers & _).
  split; [exact Hvalid |].
  apply Hmembers. split; [apply list_elem_of_here | discriminate].
Defined.

(** ** Adding a dependency edge *)

Lemma unique_on_snoc {K A} `{EqDecision K} (key : A → K) rows r :
  unique_on key (rows ++ [r]) = true ↔
  unique_on key rows = true ∧ key r ∉ key <$> rows.
Proof.
  unfold unique_on. rewrite !bool_decide_eq_true, fmap_app, NoDup_app.
  simpl. split.
  - intros (Hdup & Hfresh & _). split; [done |].
    intros Hin. apply (Hfresh _ Hin), list_elem_of_here.
  - intros [Hdup Hfresh]. split; [done |]. split.
    + by intros x Hx ->%list_elem_of_singleton.
    + apply NoDup_singleton.
Qed.

Lemma references_snoc {K A B} `{EqDecision K} (fk : A → K) (pk : B → K)
    rows r targets :
  references fk pk (rows ++ [r]) targets = true ↔
  references fk pk rows targets = true ∧ fk r ∈ pk <$> targets.
Proof.
  unfold references. rewrite forallb_app, andb_true_iff. simpl.
  by rewrite andb_true_r, bool_decide_eq_true.
Qed.

(** X28: nothing stops a dependency cycle from being created: an edge that
    is accepted leaves an admitted state with that one edge added, and an
    edge from a milestone to itself, or to a milestone that already depends
    on it (directly or through others), is accepted like any other -- the
    state is then cyclic. *)
Theorem createMilestoneDependency_closes_cycle db r :
  valid db = true →
  MilestoneDependency.id r
  ∉ MilestoneDependency.id <$> milestoneDependencies db →
  ¬ depends_on db (MilestoneDependency.milestoneId r)
      (MilestoneDependency.dependsOnId r) →
  MilestoneDependency.milestoneId r ∈ Milestone.id <$> milestones db →
  MilestoneDependency.dependsOnId r ∈ Milestone.id <$> milestones db →
  ∃ db',
    createMilestoneDependency r db = Some db'
    ∧ valid db' = true
    ∧ (∀ a b, depends_on db' a b
              ↔ depends_on db a b
                ∨ (a = MilestoneDependency.milestoneId r
                   ∧ b = MilestoneDependency.dependsOnId r))
    ∧ (rtc (depends_on db) (MilestoneDependency.dependsOnId r)
         (MilestoneDependency.milestoneId r) →
       cyclic db').
Proof.
  intros Hvalid Hid Hpair Hfrom Hto. unfold createMilestoneDependency.
  rewrite (proj2 (among_false _ _) Hid).
  rewrite (bool_decide_eq_false_2 _ Hpair).
  rewrite (proj2 (among_true _ _) Hfrom), (proj2 (among_true _ _) Hto).
  simpl. eexists. split; [reflexivity |].
  set (db' := {| users := users db |}).
  assert (∀ a b, depends_on db' a b
                 ↔ depends_on db a b
                   ∨ (a = MilestoneDependency.milestoneId r
                      ∧ b = MilestoneDependency.dependsOnId r)) as Hedges.
  { intros a b. unfold depends_on, db'. simpl.
    rewrite fmap_app, elem_of_app. simpl.
    rewrite list_elem_of_singleton.
    split; (intros [Hold | Hnew]; [by left | right]).
    - by injection Hnew as -> ->.
    - by destruct Hnew as [-> ->]. }
  split; [| split; [exact Hedges |]].
  - revert Hvalid.
    unfold valid, primary_keys, uniques, foreign_keys, int_ranges.
    rewrite !andb_true_iff. intros H. destruct_and?.
    unfold db'. simpl. repeat split; try assumption.
    + by apply unique_on_snoc.
    + by apply unique_on_snoc.
    + by apply references_snoc.
    + by apply references_snoc.
  - intros Hback. exists (MilestoneDependency.milestoneId r).
    apply tc_rtc_r with (MilestoneDependency.dependsOnId r).
    + apply tc_once, Hedges. by right.
    + eapply rtc_subrel; [| exact Hback].
      intros a b Hab. apply Hedges. by left.
Qed.

Lemma createMilestoneDependency_closes_cycle_witness :
  ∃ db',
    createMilestoneDependency (Sample.dependency "d4" "m3" "m3") Sample.db
    = Some db'
    ∧ valid db' = true
    ∧ cyclic db'.
Proof.
  destruct (createMilestoneDependency_closes_cycle Sample.db
              (Sample.dependency "d4" "m3" "m3") eq_refl)
    as (db' & Hcreate & Hvalid & _ & Hcyclic).
  - simpl. rewrite !not_elem_of_cons. repeat split; try discriminate.
    apply not_elem_of_nil.
  - unfold depends_on. simpl. rewrite !not_elem_of_cons.
    repeat split; try discriminate. apply not_elem_of_nil.
  - simpl. apply list_elem_of_further, list_elem_of_further,
      list_elem_of_here.
  - simpl. apply list_elem_of_further, list_elem_of_further,
      list_elem_of_here.
  - exists db'. split; [exact Hcreate |]. split; [exact Hvalid |].
    apply Hcyclic. apply rtc_refl.
Defined.

End SchemaFacts.
